(** * CANSLIM screener

    A shallow embedding of [canslim_screener.py]: the growth metrics derived
    in [fetch_financials], the pattern detectors ([check_deceleration],
    [relative_strength], [detect_base_on_base], [volume_dry_up]) and the filter
    cascade of [screen_stock].

    Numbers.  Every pandas column the program reads is taken as a float64
    column, and a float64 is Rocq's primitive binary64 [float]: the same
    IEEE 754 arithmetic numpy performs, in which a division by zero yields an
    infinity or a NaN instead of raising, and every ordered comparison with a
    NaN is false.  Python's [x > y] is written [y <? x].

    Exceptions.  The modelled code raises the [IndexError] of a positional
    access out of bounds and the [KeyError] of a label a column does not
    have; code that may raise lives in the [result] monad.

    External calls.  The network fetches ([yf.Ticker], [yf.download]) are not
    modelled: the functions below take what the fetches return. *)

From Stdlib Require Import String ZArith Bool Floats List Lia.
Import ListNotations.

Set Warnings "-inexact-float".
Local Open Scope float_scope.

(** ** Exceptions *)

Inductive exn : Set := IndexError | KeyError.

Inductive result (A : Type) : Type :=
| Ok (a : A)
| Raise (e : exn).

Arguments Ok {A} a.
Arguments Raise {A} e.

Definition bind {A B : Type} (r : result A) (k : A -> result B) : result B :=
  match r with
  | Ok a => k a
  | Raise e => Raise e
  end.

Notation "x <- c ;; k" := (bind c (fun x => k))
  (at level 61, c at next level, right associativity).

(** A list comprehension whose body may raise: the first exception ends it. *)
Fixpoint traverse {A B : Type} (f : A -> result B) (l : list A) : result (list B) :=
  match l with
  | [] => Ok []
  | a :: l' => b <- f a ;; bs <- traverse f l' ;; Ok (b :: bs)
  end.

(** ** Positional access *)

(** [s.iloc[i]], and [l[i]] on a Python list: a negative [i] counts from the
    end, and a position outside the sequence raises [IndexError]. *)
Definition iloc (l : list float) (i : Z) : result float :=
  let n := Z.of_nat (length l) in
  let k := if (i <? 0)%Z then (n + i)%Z else i in
  if ((k <? 0) || (n <=? k))%Z then Raise IndexError
  else Ok (nth (Z.to_nat k) l nan).

(** [s[-k:]]: the last [k] entries, or all of them when there are fewer. *)
Definition tail_slice {A : Type} (k : nat) (l : list A) : list A :=
  skipn (length l - k) l.

(** [range(start, stop)]. *)
Definition py_range (start stop : nat) : list nat := seq start (stop - start).

(** [np.mean] of a Python list: the sum from the left over the count; the
    program applies it to the two annual growths only. *)
Definition np_mean (l : list float) : float :=
  match l with
  | [] => nan
  | x :: r => fold_left add r x / of_uint63 (Uint63.of_Z (Z.of_nat (length l)))
  end.

(** ** Growth metrics ([fetch_financials]) *)

(** The expression the program repeats for every growth rate:
    [(cur - prev) / abs(prev) * 100]. *)
Definition growth (cur prev : float) : float := (cur - prev) / abs prev * 100.

(** [info]: the two entries of the provider's dictionary the program reads. *)
Record Info : Set := mkInfo {
  sharesOutstanding : Z;
  heldPercentInstitutions : float
}.

(** The dictionary [fetch_financials] returns. *)
Record Financials : Set := mkFinancials {
  q_eps_growth : float;
  a_eps_growth : float;
  shares_out : Z;
  institutional_own : float;
  quarterly_earnings : list float
}.

(** Lines 21-25: quarterly growth over the two most recent entries. *)
Definition quarterly_growth (quarterly : list float) : result float :=
  if (1 <? length quarterly)%nat then
    latest_eps <- iloc quarterly (-1) ;;
    prev_eps <- iloc quarterly (-2) ;;
    Ok (if negb (prev_eps =? 0) then growth latest_eps prev_eps else 0)
  else Ok 0.

(** An earnings frame with its index.  The labels of the rows are integers
    (the default index, or years) or of another kind (quarter names, dates);
    only the integer ones are kept, the others are never read. *)
Inductive EarningsFrame : Set :=
| IntIndexed (rows : list (Z * float))
| NameIndexed (values : list float).

(** The column [frame['Earnings']], without its index. *)
Definition values_of (frame : EarningsFrame) : list float :=
  match frame with
  | IntIndexed rows => map snd rows
  | NameIndexed values => values
  end.

(** [s[-k:]] on a column: a slice is taken by position, labels and values
    together. *)
Definition tail_frame (k : nat) (frame : EarningsFrame) : EarningsFrame :=
  match frame with
  | IntIndexed rows => IntIndexed (tail_slice k rows)
  | NameIndexed values => NameIndexed (tail_slice k values)
  end.

(** [s[k]] for an integer [k].  On integer labels the key is a label: the
    row that carries it is read, and a label no row carries raises
    [KeyError].  On labels of another kind the pandas versions the program
    runs on fall back to the position. *)
Definition getitem (s : EarningsFrame) (k : Z) : result float :=
  match s with
  | IntIndexed rows =>
      match find (fun r => (fst r =? k)%Z) rows with
      | Some r => Ok (snd r)
      | None => Raise KeyError
      end
  | NameIndexed values => iloc values k
  end.

(** Lines 27-31: the mean of the year-over-year growths of the last three
    annual values, each read as [eps_values[i]]. *)
Definition annual_growth (annual : EarningsFrame) : result float :=
  if (3 <=? length (values_of annual))%nat then
    let eps_values := tail_frame 3 annual in
    annual_growths <-
      traverse (fun i : nat =>
                  cur <- getitem eps_values (Z.of_nat i) ;;
                  prev <- getitem eps_values (Z.of_nat i - 1) ;;
                  Ok (growth cur prev))
               (py_range 1 (length (values_of eps_values))) ;;
    Ok (np_mean annual_growths)
  else Ok 0.

(** [fetch_financials] after the fetch: any exception in the body is caught
    and turned into [None]. *)
Definition fetch_financials (quarterly : list float) (annual : EarningsFrame)
  (info : Info) : option Financials :=
  match
    (q <- quarterly_growth quarterly ;;
     a <- annual_growth annual ;;
     Ok (mkFinancials q a (sharesOutstanding info)
           (heldPercentInstitutions info * 100) quarterly))
  with
  | Ok f => Some f
  | Raise _ => None
  end.

(** ** Acceleration and deceleration *)

(** One entry of the comprehensions of lines 55 and 61:
    [(q.iloc[i] - q.iloc[i-1]) / abs(q.iloc[i-1]) * 100]. *)
Definition growth_at (quarterly : list float) (i : Z) : result float :=
  cur <- iloc quarterly i ;;
  prev <- iloc quarterly (i - 1) ;;
  Ok (growth cur prev).

Definition check_accelerating_earnings (quarterly : list float) : result bool :=
  if (length quarterly <? 3)%nat then Ok false
  else
    growths <- traverse (growth_at quarterly) [-2; -1]%Z ;;
    g1 <- iloc growths (-1) ;;
    g2 <- iloc growths (-2) ;;
    Ok ((g2 <? g1) && (25 <? g1)).

Definition check_deceleration (quarterly : list float) : result bool :=
  if (length quarterly <? 3)%nat then Ok false
  else
    growths <- traverse (growth_at quarterly) [-3; -2; -1]%Z ;;
    g1 <- iloc growths (-1) ;;
    g2 <- iloc growths (-2) ;;
    g3 <- iloc growths (-3) ;;
    Ok ((g1 <? g2) && (g2 <? g3) && (g1 <? 15)).

(** ** Price frames *)

(** One row of the frame [yf.download] returns, indexed by its date. *)
Record PriceBar : Set := mkBar {
  Date : Z;
  Open : float;
  High : float;
  Low : float;
  Close : float;
  Volume : float
}.

(** A price frame: its rows, and the columns assigned to it after the
    download, by name, in the order of their creation. *)
Record DataFrame : Set := mkFrame {
  bars : list PriceBar;
  added : list (string * list float)
}.

(** [data.empty] *)
Definition empty (data : DataFrame) : bool :=
  match bars data with
  | [] => true
  | _ :: _ => false
  end.

(** [data[name] = col] on the added columns: a column of that name is
    replaced where it stands, a new one goes last. *)
Fixpoint set_column (name : string) (col : list float)
  (cols : list (string * list float)) : list (string * list float) :=
  match cols with
  | [] => [(name, col)]
  | (n, c) :: rest =>
      if String.eqb n name then (name, col) :: rest
      else (n, c) :: set_column name col rest
  end.

Definition assign (name : string) (col : list float) (data : DataFrame) : DataFrame :=
  mkFrame (bars data) (set_column name col (added data)).

(** [data[name]] read from the added columns; [None] where Python raises
    [KeyError]. *)
Fixpoint get_column (name : string) (cols : list (string * list float))
  : option (list float) :=
  match cols with
  | [] => None
  | (n, c) :: rest => if String.eqb n name then Some c else get_column name rest
  end.

(** [data.iloc[a:b]] for [0 <= a <= b]. *)
Definition iloc_slice {A : Type} (a b : nat) (l : list A) : list A :=
  firstn (b - a) (skipn a l).

(** [range(start, stop, step)] for a positive [step]. *)
Definition py_range_step (start stop step : nat) : list nat :=
  map (fun k => start + k * step)%nat (seq 0 ((stop - start + step - 1) / step)).

(** The builtins [max] and [min] over the values of a column: the first
    value is kept until a later one compares greater (smaller).  On an empty
    sequence Python raises; the loop of [detect_base_on_base] never passes
    one, every slice it takes being a full window ([window_full]). *)
Definition py_max (l : list float) : float :=
  match l with
  | [] => nan
  | x :: r => fold_left (fun m y => if m <? y then y else m) r x
  end.

Definition py_min (l : list float) : float :=
  match l with
  | [] => nan
  | x :: r => fold_left (fun m y => if y <? m then y else m) r x
  end.

(** [s.max()]: the greatest value that is not a NaN, NaN when there is none. *)
Definition series_max (l : list float) : float :=
  match filter (fun x => negb (is_nan x)) l with
  | [] => nan
  | x :: r => fold_left (fun m y => if m <? y then y else m) r x
  end.

(** [s.pct_change()] with the defaults of the pandas versions the program
    runs on: a NaN is first replaced by the last value before it
    ([fill_method='pad']), then each value is divided by its predecessor and
    1 is subtracted; the first row has no predecessor and gets NaN. *)
Fixpoint pad_from (prev : float) (l : list float) : list float :=
  match l with
  | [] => []
  | x :: r => let y := if is_nan x then prev else x in y :: pad_from y r
  end.

Definition pad (l : list float) : list float := pad_from nan l.

Definition shift (l : list float) : list float :=
  match l with
  | [] => []
  | _ :: _ => nan :: removelast l
  end.

Definition pct_change (l : list float) : list float :=
  let d := pad l in
  map (fun xy => fst xy / snd xy - 1) (combine d (shift d)).

(** [data[mask]]: the rows whose entry of the boolean column is true. *)
Definition select {A : Type} (mask : list bool) (l : list A) : list A :=
  map snd (filter fst (combine mask l)).

(** [stock['Close'] / market['Close'] * 100]: pandas aligns the two columns
    on their dates.  For frames in chronological order with one row per date
    (as the provider delivers them) the result has one row per date of either
    frame, in order, and NaN where a side has no row for the date. *)
Fixpoint ratio_series (stock : list PriceBar) : list PriceBar -> list float :=
  match stock with
  | [] => fun market => map (fun _ => nan) market
  | a :: stock' =>
      fix against (market : list PriceBar) : list float :=
        match market with
        | [] => map (fun _ => nan) (a :: stock')
        | b :: market' =>
            if (Date a <? Date b)%Z then nan :: ratio_series stock' market
            else if (Date b <? Date a)%Z then nan :: against market'
            else (Close a / Close b * 100) :: ratio_series stock' market'
        end
  end.

(** ** Base on base *)

Definition window : nat := 20.

(** The test of line 78 on one slice. *)
Definition is_consolidation (slice_data : list PriceBar) : bool :=
  let c := map Close slice_data in
  py_max c - py_min c <? 0.15 * py_min c.

(** The list [consolidations] when the loop of lines 76-81 ends. *)
Definition consolidations_of (data : list PriceBar) : list bool :=
  map (fun i => is_consolidation (iloc_slice (i - window) i data))
      (py_range_step window (length data) window).

(** [len(c) >= 2 and c[-1] and c[-2]] *)
Definition last_two (c : list bool) : bool :=
  match rev c with
  | c1 :: c2 :: _ => c1 && c2
  | _ => false
  end.

(** [detect_base_on_base]: its answer, and the frame it was given as the
    call leaves it. *)
Definition detect_base_on_base (data : DataFrame) : bool * DataFrame :=
  if empty data then (false, data)
  else
    let data := assign "pct_change" (pct_change (map Close (bars data))) data in
    (last_two (consolidations_of (bars data)), data).

(** ** The detectors that take a mean, and the cascade *)

(** The result record of [screen_stock]. *)
Record ScreenResult : Set := mkResult {
  ticker : string;
  res_q_eps_growth : float;
  res_a_eps_growth : float;
  res_shares_out : Z;
  res_institutional_own : float;
  has_base_on_base : bool
}.

(** [data['Close'].pct_change() < -0.05], the boolean column of line 87,
    and the rows it selects. *)
Definition pullback_mask (data : DataFrame) : list bool :=
  map (fun p => p <? -0.05) (pct_change (map Close (bars data))).

Definition pullbacks (data : DataFrame) : list PriceBar :=
  select (pullback_mask data) (bars data).

(** [a or b] where evaluating [b] may raise: [b] is not evaluated when [a]
    holds. *)
Definition or_else (a : bool) (b : result bool) : result bool :=
  if a then Ok true else b.

Section Means.

(** pandas computes its means with summation schemes of its own; the
    development fixes none and holds for every one.

    [series_mean s] is [s.mean()], and [rolling_mean w s] the last entry of
    [s.rolling(w).mean()] for a column [s] of at least [w] rows. *)
Variable series_mean : list float -> float.
Variable rolling_mean : nat -> list float -> float.

(** The last entry of [s.rolling(w).mean()]: with fewer than [w] rows the
    window is incomplete and pandas gives NaN. *)
Definition rolling_mean_last (w : nat) (s : list float) : float :=
  if (length s <? w)%nat then nan else rolling_mean w s.

Definition volume_dry_up (data : DataFrame) : bool :=
  if empty data then false
  else
    match pullbacks data with
    | [] => true
    | _ :: _ =>
        let avg_vol := series_mean (map Volume (bars data)) in
        forallb (fun b => Volume b <? avg_vol) (pullbacks data)
    end.

Definition relative_strength (stock_data market_data : DataFrame) : result bool :=
  if empty stock_data || empty market_data then Ok false
  else
    let rs := ratio_series (bars stock_data) (bars market_data) in
    latest <- iloc rs (-1) ;;
    Ok (series_mean rs <? latest).

(** [screen_stock] after its three fetches: [financials] is what
    [fetch_financials] returned, [price_data] and [market_data] what
    [fetch_price_data] returned for the ticker and for the benchmark. *)
Definition screen_stock (tick : string) (financials : option Financials)
  (price_data market_data : DataFrame) : result (option ScreenResult) :=
  match financials with
  | None => Ok None
  | Some fin =>
      c1 <- or_else (q_eps_growth fin <? 25)
                    (check_deceleration (quarterly_earnings fin)) ;;
      if c1 then Ok None else
      if a_eps_growth fin <? 25 then Ok None else
      c3 <- or_else (empty price_data)
                    (latest <- iloc (map Close (bars price_data)) (-1) ;;
                     Ok (latest <? series_max (map Close (bars price_data)) * 0.95)) ;;
      if c3 then Ok None else
      if (200000000 <? shares_out fin)%Z then Ok None else
      if negb (volume_dry_up price_data) then Ok None else
      rs <- relative_strength price_data market_data ;;
      if negb rs then Ok None else
      if institutional_own fin <? 30 then Ok None else
      c8 <- or_else (empty market_data)
                    (latest <- iloc (map Close (bars market_data)) (-1) ;;
                     Ok (latest <? rolling_mean_last 200 (map Close (bars market_data)))) ;;
      if c8 then Ok None else
      let has := fst (detect_base_on_base price_data) in
      Ok (Some (mkResult tick (q_eps_growth fin) (a_eps_growth fin)
                  (shares_out fin) (institutional_own fin) has))
  end.

(** The eight criteria of the cascade taken together, each as the program
    decides it: a criterion holds when its rejection test does not fire.
    [decelerating] and [strong] stand for the answers of
    [check_deceleration] and [relative_strength]. *)
Definition criteria_hold (fin : Financials) (decelerating strong : bool)
  (price_data market_data : DataFrame) : bool :=
  (negb (q_eps_growth fin <? 25) && negb decelerating)
  && negb (a_eps_growth fin <? 25)
  && (negb (empty price_data)
      && negb (last (map Close (bars price_data)) nan
               <? series_max (map Close (bars price_data)) * 0.95))
  && negb (200000000 <? shares_out fin)%Z
  && volume_dry_up price_data
  && strong
  && negb (institutional_own fin <? 30)
  && (negb (empty market_data)
      && negb (last (map Close (bars market_data)) nan
               <? rolling_mean_last 200 (map Close (bars market_data)))).

End Means.

(** The textbook means, summed from the left: [mean_skipna] skips the NaNs as
    [s.mean()] does, [mean_last w] is NaN when the last [w] rows hold a NaN
    and their mean otherwise.  On columns whose sums are exact in binary64
    every summation scheme returns the same float; the examples below use
    such columns only. *)
Definition mean_skipna (s : list float) : float :=
  match filter (fun x => negb (is_nan x)) s with
  | [] => nan
  | x :: r =>
      fold_left add r x / of_uint63 (Uint63.of_Z (Z.of_nat (length (x :: r))))
  end.

Definition mean_last (w : nat) (s : list float) : float :=
  let win := tail_slice w s in
  if existsb is_nan win then nan
  else np_mean win.

(** ** Sample data *)

(** A bar that opened, peaked, bottomed and closed at [c] on day [d], with
    volume [v]. *)
Definition bar (d : Z) (c v : float) : PriceBar := mkBar d c c c c v.

(** Three days with one pullback (100 to 90) on below-average volume. *)
Definition dry_frame : DataFrame :=
  mkFrame [bar 1 100 10; bar 2 90 20; bar 3 95 60] [].

(** The same closes with the pullback on the heaviest volume. *)
Definition wet_frame : DataFrame :=
  mkFrame [bar 1 100 10; bar 2 90 60; bar 3 95 20] [].

(** Two days of a stock that rises while the benchmark stands still. *)
Definition rising_stock : DataFrame := mkFrame [bar 1 100 10; bar 2 110 10] [].
Definition flat_market : DataFrame := mkFrame [bar 1 100 10; bar 2 100 10] [].

(** Forty days at a constant close: two full windows of twenty. *)
Definition flat40 : DataFrame :=
  mkFrame (map (fun d => bar (Z.of_nat d) 100 10) (seq 1 40)) [].

(** One more day: the loop now scans both windows. *)
Definition flat41 : DataFrame :=
  mkFrame (map (fun d => bar (Z.of_nat d) 100 10) (seq 1 41)) [].

(** Three annual rows under the default index, doubling every year. *)
Definition three_years : EarningsFrame :=
  IntIndexed [(0%Z, 1); (1%Z, 2); (2%Z, 4)].

(** The same values with one more year before them, labelled by year. *)
Definition four_years : EarningsFrame :=
  IntIndexed [(2020%Z, 9); (2021%Z, 1); (2022%Z, 2); (2023%Z, 4)].


(** Fifty million shares, 35 per cent of them held by institutions. *)
Definition sound_info : Info := mkInfo 50000000 0.35.

(** ** The batch ([run_screener]) *)

(** One ticker of [self.stocks] with what the three fetches of its call of
    [screen_stock] returned. *)
Record Fetched : Set := mkFetched {
  stock_ticker : string;
  financials_of : option Financials;
  price_of : DataFrame;
  market_of : DataFrame
}.

Section Batch.

Variable series_mean : list float -> float.
Variable rolling_mean : nat -> list float -> float.

(** [self.screen_stock(ticker)] *)
Definition screen_fetched (s : Fetched) : result (option ScreenResult) :=
  screen_stock series_mean rolling_mean (stock_ticker s) (financials_of s)
    (price_of s) (market_of s).

(** [run_screener] on [self.results = results]: the list [self.results] as
    the call leaves it, and the exception that ended the call, if one did.
    A call that ends normally returns that list.  A result is a dictionary
    of six keys, which Python reads as true, and [None] is read as false. *)
Fixpoint run_screener (stocks : list Fetched) (results : list ScreenResult)
  : list ScreenResult * option exn :=
  match stocks with
  | [] => (results, None)
  | s :: rest =>
      match screen_fetched s with
      | Raise e => (results, Some e)
      | Ok None => run_screener rest results
      | Ok (Some r) => run_screener rest (results ++ [r])
      end
  end.

(** The results the tickers of a list yield, in the order of the list. *)
Definition passes (stocks : list Fetched) : list ScreenResult :=
  flat_map (fun s => match screen_fetched s with
                     | Ok (Some r) => [r]
                     | _ => []
                     end) stocks.

(** No ticker of the list makes [screen_stock] raise. *)
Definition all_return (stocks : list Fetched) : Prop :=
  Forall (fun s => exists o, screen_fetched s = Ok o) stocks.

End Batch.

(** ** The ticker universe ([get_all_tickers]) *)

(** A Python string is the list of its code points. *)
Definition text : Set := list N.

(** The characters [str.strip] removes: those [str.isspace] holds of. *)
Definition is_space (c : N) : bool :=
  ((9 <=? c) && (c <=? 13) || (28 <=? c) && (c <=? 32)
   || (c =? 133) || (c =? 160) || (c =? 5760)
   || (8192 <=? c) && (c <=? 8202)
   || (c =? 8232) || (c =? 8233) || (c =? 8239) || (c =? 8287)
   || (c =? 12288))%N.

(** The characters [str.splitlines] breaks a line at. *)
Definition is_linebreak (c : N) : bool :=
  ((10 <=? c) && (c <=? 13) || (28 <=? c) && (c <=? 30)
   || (c =? 133) || (c =? 8232) || (c =? 8233))%N.

(** [str.splitlines] from inside a line: [line] holds the characters of
    the line read so far, the last one first.  A carriage return followed
    by a line feed is one break, and a break at the very end of the text
    opens no further line. *)
Fixpoint splitlines_from (line : text) (s : text) : list text :=
  match s with
  | [] => [rev line]
  | c :: s' =>
      if is_linebreak c then
        rev line ::
        match s' with
        | [] => []
        | c' :: s'' =>
            if ((c =? 13) && (c' =? 10))%N then
              match s'' with
              | [] => []
              | _ :: _ => splitlines_from [] s''
              end
            else splitlines_from [] s'
        end
      else splitlines_from (c :: line) s'
  end.

Definition splitlines (s : text) : list text :=
  match s with
  | [] => []
  | _ :: _ => splitlines_from [] s
  end.

Fixpoint lstrip (s : text) : text :=
  match s with
  | [] => []
  | c :: s' => if is_space c then lstrip s' else s
  end.

(** [line.strip()] *)
Definition strip (s : text) : text := rev (lstrip (rev (lstrip s))).

(** [list(set(tickers))]: every ticker once.  The order Python gives is that
    of its hash table; the one chosen here is not meant, and nothing below
    depends on it. *)
Definition list_of_set (l : list text) : list text :=
  nodup (list_eq_dec N.eq_dec) l.

Inductive ticker_error : Set := ValueError.

(** [get_all_tickers] after the request: [status_code] and [body] are
    [response.status_code] and [response.text]. *)
Definition get_all_tickers (status_code : Z) (body : text)
  : list text + ticker_error :=
  if (status_code =? 200)%Z then
    inl (list_of_set
           (map strip
              (filter (fun line => match strip line with
                                   | [] => false
                                   | _ :: _ => true
                                   end)
                      (splitlines body))))
  else inr ValueError.

(** ** Sample batches *)

(** A ticker that passes, one without fundamentals, one whose quarterly
    column has three entries, and one more that passes. *)
Definition acme : Fetched :=
  mkFetched "ACME" (fetch_financials [1; 2] three_years sound_info)
    rising_stock flat_market.
Definition missing : Fetched := mkFetched "NONE" None rising_stock flat_market.
Definition three_quarters : Fetched :=
  mkFetched "BOOM" (fetch_financials [1; 1; 2] three_years sound_info)
    rising_stock flat_market.
Definition zeta : Fetched :=
  mkFetched "ZETA" (fetch_financials [1; 2] three_years sound_info)
    rising_stock flat_market.

(** The body ["A\n B \r\n\nA"]. *)
Definition sample_body : text := [65; 10; 32; 66; 32; 13; 10; 10; 65]%N.

(** * Facts of binary64 arithmetic *)

(** Nothing is below a NaN. *)
Lemma ltb_nan_r (x : float) : (x <? nan) = false.
Proof.
  rewrite ltb_spec. change (Prim2SF nan) with S754_nan.
  unfold SFltb. destruct (Prim2SF x); reflexivity.
Qed.

(** The change of a first row, [x / NaN - 1], is below nothing. *)
Lemma first_change_not_below (x c : float) : (x / nan - 1 <? c) = false.
Proof.
  rewrite ltb_spec, sub_spec, div_spec.
  change (Prim2SF nan) with S754_nan.
  assert (E : SF64div (Prim2SF x) S754_nan = S754_nan)
    by (destruct (Prim2SF x); reflexivity).
  rewrite E. reflexivity.
Qed.

Lemma SFcompare_flip (a b : spec_float) :
  SFcompare a b = Some Lt -> SFcompare b a = Some Gt.
Proof.
  assert (A : forall p q, Pos.compare_cont Eq q p = CompOpp (Pos.compare_cont Eq p q))
    by (intros p q; symmetry; apply (Pos.compare_cont_antisym p q Eq)).
  destruct a as [sa|sa| |sa ma ea], b as [sb|sb| |sb mb eb]; simpl;
    try discriminate; try (destruct sa; discriminate);
    try (destruct sb; discriminate);
    try (destruct sa, sb; (discriminate || reflexivity)).
  destruct sa, sb; try discriminate; try reflexivity;
    rewrite (Z.compare_antisym ea eb);
    destruct (ea ?= eb)%Z; simpl; try discriminate; try reflexivity;
    rewrite (A ma mb);
    destruct (Pos.compare_cont Eq ma mb); simpl; intros H;
    try discriminate; reflexivity.
Qed.

(** [y <= x] excludes [x < y]: a metric that is at least a threshold is not
    rejected by the test "below the threshold". *)
Lemma leb_not_ltb (x y : float) : (y <=? x) = true -> (x <? y) = false.
Proof.
  rewrite leb_spec, ltb_spec. unfold SFleb, SFltb. intros H.
  destruct (SFcompare (Prim2SF x) (Prim2SF y)) as [[| |]|] eqn:E; try reflexivity.
  apply SFcompare_flip in E. rewrite E in H. discriminate.
Qed.

(** Below 15 is below 25. *)
Lemma ltb_15_25 (x : float) : (x <? 15) = true -> (x <? 25) = true.
Proof.
  assert (E15 : Prim2SF 15 = S754_finite false 8444249301319680 (-49))
    by (vm_compute; reflexivity).
  assert (E25 : Prim2SF 25 = S754_finite false 7036874417766400 (-48))
    by (vm_compute; reflexivity).
  rewrite !ltb_spec, E15, E25.
  unfold SFltb, SFcompare.
  destruct (Prim2SF x) as [s|s| |s m e]; try (intros H; exact H).
  destruct s; [reflexivity|].
  destruct (Z.compare_spec e (-49)) as [E1|E1|E1];
    destruct (Z.compare_spec e (-48)) as [E2|E2|E2];
    try (exfalso; lia); try reflexivity; try discriminate.
Qed.

(** * Positional access from the end *)

Lemma iloc_from_end (pre : list float) (x : float) (post : list float) :
  iloc (pre ++ x :: post) (- Z.of_nat (S (length post))) = Ok x.
Proof.
  unfold iloc. rewrite length_app. cbn [length].
  assert (Hi : (- Z.of_nat (S (length post)) <? 0)%Z = true)
    by (apply Z.ltb_lt; lia).
  rewrite Hi.
  replace (Z.of_nat (length pre + S (length post)) + - Z.of_nat (S (length post)))%Z
    with (Z.of_nat (length pre)) by lia.
  assert (Hk : ((Z.of_nat (length pre) <? 0)
                || (Z.of_nat (length pre + S (length post)) <=? Z.of_nat (length pre)))%Z
               = false).
  { apply orb_false_iff. split; [apply Z.ltb_ge | apply Z.leb_gt]; lia. }
  rewrite Hk, Nat2Z.id, nth_middle. reflexivity.
Qed.

Lemma iloc_last (pre : list float) (x : float) : iloc (pre ++ [x]) (-1) = Ok x.
Proof. exact (iloc_from_end pre x []). Qed.

Lemma iloc_last2 (pre : list float) (x y : float) :
  iloc (pre ++ [x; y]) (-2) = Ok x.
Proof. exact (iloc_from_end pre x [y]). Qed.

Lemma iloc_last3 (pre : list float) (x y z : float) :
  iloc (pre ++ [x; y; z]) (-3) = Ok x.
Proof. exact (iloc_from_end pre x [y; z]). Qed.

Lemma iloc_last4 (pre : list float) (w x y z : float) :
  iloc (pre ++ [w; x; y; z]) (-4) = Ok w.
Proof. exact (iloc_from_end pre w [x; y; z]). Qed.

(** A list of at least [k] entries is a prefix followed by its last [k]. *)
Lemma split_last (A : Type) (k : nat) (l : list A) :
  (k <= length l)%nat ->
  exists pre post, l = pre ++ post /\ length post = k.
Proof.
  intros H. exists (firstn (length l - k) l), (skipn (length l - k) l).
  split; [symmetry; apply firstn_skipn|].
  rewrite length_skipn. lia.
Qed.

Lemma split_last2 (A : Type) (l : list A) :
  (2 <= length l)%nat -> exists pre x y, l = pre ++ [x; y].
Proof.
  intros H. destruct (split_last A 2 l H) as (pre & post & -> & Hp).
  destruct post as [|x [|y [|z post]]]; try discriminate.
  exists pre, x, y. reflexivity.
Qed.

Lemma split_last3 (A : Type) (l : list A) :
  (3 <= length l)%nat -> exists pre x y z, l = pre ++ [x; y; z].
Proof.
  intros H. destruct (split_last A 3 l H) as (pre & post & -> & Hp).
  destruct post as [|x [|y [|z [|w post]]]]; try discriminate.
  exists pre, x, y, z. reflexivity.
Qed.

Lemma split_last4 (A : Type) (l : list A) :
  (4 <= length l)%nat -> exists pre w x y z, l = pre ++ [w; x; y; z].
Proof.
  intros H. destruct (split_last A 4 l H) as (pre & post & -> & Hp).
  destruct post as [|w [|x [|y [|z [|v post]]]]]; try discriminate.
  exists pre, w, x, y, z. reflexivity.
Qed.

(** * Growth metrics *)

Lemma quarterly_growth_short (s : list float) :
  (length s < 2)%nat -> quarterly_growth s = Ok 0.
Proof.
  intros H. unfold quarterly_growth.
  destruct (Nat.ltb_spec 1 (length s)); [lia | reflexivity].
Qed.

Lemma quarterly_growth_two (pre : list float) (prev latest : float) :
  quarterly_growth (pre ++ [prev; latest])
  = Ok (if prev =? 0 then 0 else (latest - prev) / abs prev * 100).
Proof.
  unfold quarterly_growth.
  assert (L : (1 <? length (pre ++ [prev; latest]))%nat = true).
  { apply Nat.ltb_lt. rewrite length_app. simpl. lia. }
  rewrite L.
  change (pre ++ [prev; latest]) with (pre ++ [prev] ++ [latest]) at 1.
  rewrite app_assoc, iloc_last, iloc_last2. cbn [bind].
  unfold growth. destruct (prev =? 0); reflexivity.
Qed.

(** C8. On fewer than two entries [quarterly_growth] is 0; on two or more
    it is [(latest - previous) / |previous| * 100] over the two most recent
    entries, and 0 whenever the previous entry is zero, whatever the latest
    one is. *)
Theorem quarterly_growth_spec (s : list float) :
  ((length s < 2)%nat -> quarterly_growth s = Ok 0) /\
  (forall pre prev latest, s = pre ++ [prev; latest] ->
     quarterly_growth s
     = Ok (if prev =? 0 then 0 else (latest - prev) / abs prev * 100)) /\
  (forall pre prev latest, s = pre ++ [prev; latest] ->
     (prev =? 0) = true -> quarterly_growth s = Ok 0) /\
  ((2 <= length s)%nat -> exists pre prev latest, s = pre ++ [prev; latest]).
Proof.
  split; [apply quarterly_growth_short|].
  split; [intros pre prev latest ->; apply quarterly_growth_two|].
  split; [|apply split_last2].
  intros pre prev latest -> H0. rewrite quarterly_growth_two, H0. reflexivity.
Qed.

Lemma quarterly_growth_spec_witness :
  quarterly_growth [7] = Ok 0 /\
  quarterly_growth [3; 4; 5] = Ok 25 /\
  quarterly_growth [3; 0; 5] = Ok 0.
Proof.
  split; [|split].
  - apply (proj1 (quarterly_growth_spec [7])). simpl. lia.
  - apply (proj1 (proj2 (quarterly_growth_spec [3; 4; 5])) [3] 4 5). reflexivity.
  - apply (proj1 (proj2 (proj2 (quarterly_growth_spec [3; 0; 5]))) [3] 0 5);
      reflexivity.
Defined.

Lemma tail_slice_app (A : Type) (pre post : list A) :
  tail_slice (length post) (pre ++ post) = post.
Proof.
  unfold tail_slice. rewrite length_app.
  replace (length pre + length post - length post)%nat with (length pre) by lia.
  rewrite skipn_app, skipn_all, Nat.sub_diag. reflexivity.
Qed.

Lemma annual_growth_short (annual : EarningsFrame) :
  (length (values_of annual) < 3)%nat -> annual_growth annual = Ok 0.
Proof.
  intros H. unfold annual_growth.
  destruct (Nat.leb_spec 3 (length (values_of annual))); [lia | reflexivity].
Qed.

(** On labels that are no integers the last three values are read by
    position. *)
Lemma annual_growth_named (pre : list float) (x y z : float) :
  annual_growth (NameIndexed (pre ++ [x; y; z]))
  = Ok ((growth y x + growth z y) / 2).
Proof.
  unfold annual_growth. cbn [values_of tail_frame].
  assert (L : (3 <=? length (pre ++ [x; y; z]))%nat = true).
  { apply Nat.leb_le. rewrite length_app. simpl. lia. }
  rewrite L. cbv zeta.
  change (tail_slice 3 (pre ++ [x; y; z]))
    with (tail_slice (length [x; y; z]) (pre ++ [x; y; z])).
  rewrite (tail_slice_app float pre [x; y; z]). reflexivity.
Qed.

(** On integer labels they are read by label: the rows labelled 0, 1 and 2
    are the ones wanted, as the default index labels a frame of three
    rows. *)
Lemma annual_growth_labelled (pre : list (Z * float)) (x y z : float) :
  annual_growth (IntIndexed (pre ++ [(0%Z, x); (1%Z, y); (2%Z, z)]))
  = Ok ((growth y x + growth z y) / 2).
Proof.
  unfold annual_growth. cbn [values_of tail_frame].
  assert (L : (3 <=? length (map snd (pre ++ [(0%Z, x); (1%Z, y); (2%Z, z)])))%nat
              = true).
  { apply Nat.leb_le. rewrite length_map, length_app. simpl. lia. }
  rewrite L. cbv zeta.
  change (tail_slice 3 (pre ++ [(0%Z, x); (1%Z, y); (2%Z, z)]))
    with (tail_slice (length [(0%Z, x); (1%Z, y); (2%Z, z)])
            (pre ++ [(0%Z, x); (1%Z, y); (2%Z, z)])).
  rewrite (tail_slice_app (Z * float) pre [(0%Z, x); (1%Z, y); (2%Z, z)]).
  reflexivity.
Qed.

Lemma getitem_missing (rows : list (Z * float)) (k : Z) :
  ~ In k (map fst rows) -> getitem (IntIndexed rows) k = Raise KeyError.
Proof.
  intros H. cbn [getitem].
  destruct (find (fun r => (fst r =? k)%Z) rows) as [r|] eqn:E; [|reflexivity].
  apply find_some in E. destruct E as [Hin Hk].
  apply Z.eqb_eq in Hk. exfalso. apply H. rewrite <- Hk.
  apply in_map, Hin.
Qed.

Lemma getitem_int_cases (rows : list (Z * float)) (k : Z) :
  (exists v, getitem (IntIndexed rows) k = Ok v)
  \/ getitem (IntIndexed rows) k = Raise KeyError.
Proof.
  cbn [getitem]. destruct (find (fun r => (fst r =? k)%Z) rows) as [r|].
  - left. exists (snd r). reflexivity.
  - right. reflexivity.
Qed.

Lemma tail_slice_length (A : Type) (k : nat) (l : list A) :
  (k <= length l)%nat -> length (tail_slice k l) = k.
Proof. intros H. unfold tail_slice. rewrite length_skipn. lia. Qed.

(** When one of the labels 0, 1, 2 is missing from the last three rows, the
    comprehension of line 30 raises [KeyError]. *)
Lemma annual_growth_key_error (rows : list (Z * float)) :
  (3 <= length rows)%nat ->
  ~ In 0%Z (map fst (tail_slice 3 rows))
  \/ ~ In 1%Z (map fst (tail_slice 3 rows))
  \/ ~ In 2%Z (map fst (tail_slice 3 rows)) ->
  annual_growth (IntIndexed rows) = Raise KeyError.
Proof.
  intros Hlen H. unfold annual_growth. cbn [values_of tail_frame].
  assert (L : (3 <=? length (map snd rows))%nat = true)
    by (apply Nat.leb_le; rewrite length_map; exact Hlen).
  rewrite L. cbv zeta.
  assert (T : length (map snd (tail_slice 3 rows)) = 3%nat)
    by (rewrite length_map; apply tail_slice_length, Hlen).
  rewrite T. change (py_range 1 3) with [1; 2]%nat. cbn [traverse].
  change (Z.of_nat 1) with 1%Z. change (1 - 1)%Z with 0%Z.
  change (Z.of_nat 2) with 2%Z. change (2 - 1)%Z with 1%Z.
  destruct (getitem_int_cases (tail_slice 3 rows) 1) as [[v1 E1]|E1];
    rewrite E1; cbn [bind]; [|reflexivity].
  destruct (getitem_int_cases (tail_slice 3 rows) 0) as [[v0 E0]|E0];
    rewrite E0; cbn [bind]; [|reflexivity].
  destruct (getitem_int_cases (tail_slice 3 rows) 2) as [[v2 E2]|E2];
    rewrite E2; cbn [bind]; [|reflexivity].
  destruct H as [H|[H|H]]; apply getitem_missing in H; congruence.
Qed.

(** The quarterly growth never raises. *)
Lemma quarterly_growth_total (s : list float) : exists g, quarterly_growth s = Ok g.
Proof.
  destruct (Nat.lt_ge_cases (length s) 2) as [H|H].
  - exists 0. apply quarterly_growth_short, H.
  - destruct (split_last2 float s H) as (pre & x & y & ->).
    eexists. apply quarterly_growth_two.
Qed.

(** [fetch_financials] returns a dictionary exactly when the annual growth
    computes, and [None] when it raises. *)
Lemma fetch_financials_inv (quarterly : list float) (annual : EarningsFrame)
  (info : Info) (fin : Financials) :
  fetch_financials quarterly annual info = Some fin ->
  exists q a,
    quarterly_growth quarterly = Ok q /\ annual_growth annual = Ok a /\
    fin = mkFinancials q a (sharesOutstanding info)
            (heldPercentInstitutions info * 100) quarterly.
Proof.
  unfold fetch_financials.
  destruct (quarterly_growth_total quarterly) as [q Hq]. rewrite Hq. cbn [bind].
  destruct (annual_growth annual) as [a|e]; cbn [bind]; intros H.
  - injection H as <-. exists q, a. repeat split.
  - discriminate H.
Qed.

Lemma fetch_financials_computed (quarterly : list float)
  (annual : EarningsFrame) (info : Info) (a : float) :
  annual_growth annual = Ok a ->
  exists q,
    quarterly_growth quarterly = Ok q /\
    fetch_financials quarterly annual info
    = Some (mkFinancials q a (sharesOutstanding info)
              (heldPercentInstitutions info * 100) quarterly).
Proof.
  intros Ha. destruct (quarterly_growth_total quarterly) as [q Hq].
  exists q. split; [exact Hq|]. unfold fetch_financials.
  rewrite Hq, Ha. reflexivity.
Qed.

Lemma fetch_financials_none (quarterly : list float) (annual : EarningsFrame)
  (info : Info) (e : exn) :
  annual_growth annual = Raise e -> fetch_financials quarterly annual info = None.
Proof.
  intros Ha. destruct (quarterly_growth_total quarterly) as [q Hq].
  unfold fetch_financials. rewrite Hq, Ha. reflexivity.
Qed.

(** A zero previous value is no fallback to 0 in the annual growth: the
    division yields an infinity. *)
Example annual_growth_zero_denominator :
  annual_growth (NameIndexed [0; 1; 2]) = Ok infinity.
Proof. vm_compute. reflexivity. Qed.

(** More than three rows under the default index: the label 0 has left the
    slice. *)
Example annual_growth_four_rows :
  annual_growth (IntIndexed [(0%Z, 9); (1%Z, 1); (2%Z, 2); (3%Z, 4)])
  = Raise KeyError.
Proof. vm_compute. reflexivity. Qed.

(** * Acceleration and deceleration *)

Lemma check_accelerating_short (s : list float) :
  (length s < 3)%nat -> check_accelerating_earnings s = Ok false.
Proof.
  intros H. unfold check_accelerating_earnings.
  destruct (Nat.ltb_spec (length s) 3); [reflexivity | lia].
Qed.

Lemma check_accelerating_three (pre : list float) (x y z : float) :
  check_accelerating_earnings (pre ++ [x; y; z])
  = Ok ((growth y x <? growth z y) && (25 <? growth z y)).
Proof.
  unfold check_accelerating_earnings.
  assert (L : (length (pre ++ [x; y; z]) <? 3)%nat = false).
  { apply Nat.ltb_ge. rewrite length_app. simpl. lia. }
  rewrite L. cbn [traverse]. unfold growth_at.
  change (-2 - 1)%Z with (-3)%Z. change (-1 - 1)%Z with (-2)%Z.
  rewrite iloc_last3.
  change (pre ++ [x; y; z]) with (pre ++ [x] ++ [y; z]).
  rewrite app_assoc, iloc_last2.
  change ((pre ++ [x]) ++ [y; z]) with ((pre ++ [x]) ++ [y] ++ [z]).
  rewrite app_assoc, iloc_last. reflexivity.
Qed.

(** [check_accelerating_earnings] never raises. *)
Lemma check_accelerating_total (s : list float) :
  exists b, check_accelerating_earnings s = Ok b.
Proof.
  destruct (Nat.lt_ge_cases (length s) 3) as [H|H].
  - exists false. apply check_accelerating_short, H.
  - destruct (split_last3 float s H) as (pre & x & y & z & ->).
    eexists. apply check_accelerating_three.
Qed.

Lemma check_deceleration_short (s : list float) :
  (length s < 3)%nat -> check_deceleration s = Ok false.
Proof.
  intros H. unfold check_deceleration.
  destruct (Nat.ltb_spec (length s) 3); [reflexivity | lia].
Qed.

Lemma check_deceleration_four (pre : list float) (w x y z : float) :
  check_deceleration (pre ++ [w; x; y; z])
  = Ok ((growth z y <? growth y x) && (growth y x <? growth x w)
        && (growth z y <? 15)).
Proof.
  unfold check_deceleration.
  assert (L : (length (pre ++ [w; x; y; z]) <? 3)%nat = false).
  { apply Nat.ltb_ge. rewrite length_app. simpl. lia. }
  rewrite L. cbn [traverse]. unfold growth_at.
  change (-3 - 1)%Z with (-4)%Z.
  change (-2 - 1)%Z with (-3)%Z. change (-1 - 1)%Z with (-2)%Z.
  rewrite iloc_last4.
  change (pre ++ [w; x; y; z]) with (pre ++ [w] ++ [x; y; z]).
  rewrite app_assoc, iloc_last3.
  change ((pre ++ [w]) ++ [x; y; z]) with ((pre ++ [w]) ++ [x] ++ [y; z]).
  rewrite app_assoc, iloc_last2.
  change (((pre ++ [w]) ++ [x]) ++ [y; z])
    with (((pre ++ [w]) ++ [x]) ++ [y] ++ [z]).
  rewrite app_assoc, iloc_last. reflexivity.
Qed.

(** Away from length three, [check_deceleration] returns. *)
Lemma check_deceleration_total (s : list float) :
  length s <> 3%nat -> exists b, check_deceleration s = Ok b.
Proof.
  intros H3. destruct (Nat.lt_ge_cases (length s) 3) as [H|H].
  - exists false. apply check_deceleration_short, H.
  - assert (H4 : (4 <= length s)%nat) by lia.
    destruct (split_last4 float s H4) as (pre & w & x & y & z & ->).
    eexists. apply check_deceleration_four.
Qed.

(** At length three it raises: the first growth reads the position four
    from the end. *)
Lemma check_deceleration_raises (s : list float) :
  length s = 3%nat -> check_deceleration s = Raise IndexError.
Proof.
  intros H. destruct s as [|a [|b [|c [|d s]]]]; try discriminate H.
  reflexivity.
Qed.

(** C3. At the shortest length its guard admits, three entries,
    [check_deceleration] reads the position four from the end and raises
    [IndexError]: the growth computations are not total. *)
Theorem check_deceleration_three (a b c : float) :
  iloc [a; b; c] (-3) = Ok a /\
  iloc [a; b; c] (-3 - 1) = Raise IndexError /\
  growth_at [a; b; c] (-3) = Raise IndexError /\
  check_deceleration [a; b; c] = Raise IndexError.
Proof.
  assert (I3 : iloc [a; b; c] (-3) = Ok a) by reflexivity.
  assert (I4 : iloc [a; b; c] (-3 - 1) = Raise IndexError) by reflexivity.
  assert (G : growth_at [a; b; c] (-3) = Raise IndexError).
  { unfold growth_at. rewrite I3, I4. reflexivity. }
  split; [exact I3|]. split; [exact I4|]. split; [exact G|].
  unfold check_deceleration. cbn [length Nat.ltb Nat.leb traverse].
  rewrite G. reflexivity.
Qed.

(** Where it returns, a zero previous value is no fallback either: the
    first growth is infinite and the test is decided on it. *)
Example check_deceleration_zero_denominator :
  check_deceleration [0; 4; 5; 5.5] = Ok true.
Proof. vm_compute. reflexivity. Qed.

Example check_accelerating_rising :
  check_accelerating_earnings [100; 130; 182] = Ok true.
Proof. vm_compute. reflexivity. Qed.

(** Faster than before, but not above 25. *)
Example check_accelerating_small :
  check_accelerating_earnings [100; 110; 132] = Ok false.
Proof. vm_compute. reflexivity. Qed.

Example check_deceleration_falling :
  check_deceleration [100; 150; 180; 198] = Ok true.
Proof. vm_compute. reflexivity. Qed.

(** * Percentage change and row selection *)

Lemma select_cons (A : Type) (m : bool) (mask : list bool) (x : A) (l : list A) :
  select (m :: mask) (x :: l) = if m then x :: select mask l else select mask l.
Proof. unfold select. simpl. destruct m; reflexivity. Qed.

(** A row is selected exactly when the mask is true at its position. *)
Lemma In_select (A : Type) (mask : list bool) (l : list A) (b : A) :
  In b (select mask l) <->
  exists i, nth_error mask i = Some true /\ nth_error l i = Some b.
Proof.
  revert l. induction mask as [|m mask IH]; intros l.
  - split; [intros [] | intros ([|i] & H & _); discriminate].
  - destruct l as [|x l].
    + split; [unfold select; destruct m; intros [] |].
      intros ([|i] & _ & H); discriminate.
    + rewrite select_cons. split.
      * destruct m.
        -- intros [<- | H]; [exists 0%nat; split; reflexivity|].
           apply IH in H. destruct H as (i & Hm & Hl). exists (S i). split; assumption.
        -- intros H. apply IH in H. destruct H as (i & Hm & Hl).
           exists (S i). split; assumption.
      * intros ([|i] & Hm & Hl); simpl in Hm, Hl.
        -- injection Hm as ->. injection Hl as ->. left. reflexivity.
        -- assert (H : In b (select mask l)) by (apply IH; exists i; split; assumption).
           destruct m; [right|]; exact H.
Qed.

Lemma combine_prev (t : list float) :
  forall (a : float) (i : nat) (y x : float),
    nth_error t i = Some y -> nth_error (a :: t) i = Some x ->
    nth_error (combine t (removelast (a :: t))) i = Some (y, x).
Proof.
  induction t as [|b t IH]; intros a i y x Hy Hx.
  - destruct i; discriminate.
  - change (removelast (a :: b :: t)) with (a :: removelast (b :: t)).
    destruct i as [|i]; simpl in Hy, Hx |- *.
    + congruence.
    + apply IH; assumption.
Qed.

(** The first change of a column is [x / NaN - 1] for its padded first
    value [x]. *)
Lemma pct_change_first (c : float) (r : list float) :
  exists x rest, pct_change (c :: r) = (x / nan - 1) :: rest.
Proof.
  unfold pct_change, pad. cbn [pad_from].
  set (y := if is_nan c then nan else c).
  exists y. eexists. cbn [shift combine map fst snd]. reflexivity.
Qed.

(** Every later change is the padded value over its predecessor, minus 1. *)
Lemma pct_change_succ (l : list float) (i : nat) (x y : float) :
  nth_error (pad l) i = Some x -> nth_error (pad l) (S i) = Some y ->
  nth_error (pct_change l) (S i) = Some (y / x - 1).
Proof.
  intros Hx Hy. unfold pct_change. cbv zeta.
  destruct (pad l) as [|a t]; [destruct i; discriminate|].
  cbn [shift combine]. rewrite nth_error_map. cbn [nth_error].
  simpl in Hy. rewrite (combine_prev t a i y x Hy Hx). reflexivity.
Qed.

(** Padding leaves a column without NaNs as it is. *)
Lemma pad_from_no_nan (l : list float) (prev : float) :
  Forall (fun x => is_nan x = false) l -> pad_from prev l = l.
Proof.
  intros H. revert prev. induction H as [|x l Hx _ IH]; intros prev.
  - reflexivity.
  - cbn [pad_from]. rewrite Hx. cbv zeta. rewrite IH. reflexivity.
Qed.

Lemma pct_change_length (l : list float) : length (pct_change l) = length l.
Proof.
  unfold pct_change. cbv zeta. rewrite length_map, length_combine.
  assert (P : forall prev, length (pad_from prev l) = length l).
  { induction l as [|x l IH]; intros prev; [reflexivity|].
    cbn [pad_from length]. rewrite IH. reflexivity. }
  unfold pad. destruct (pad_from nan l) as [|a t] eqn:E.
  - rewrite <- (P nan), E. reflexivity.
  - cbn [shift]. rewrite <- (P nan), E.
    change (length (nan :: removelast (a :: t))) with (S (length (removelast (a :: t)))).
    rewrite removelast_firstn_len, length_firstn. simpl. lia.
Qed.

(** The first row of a frame is never a pullback row. *)
Lemma pullback_mask_first (data : DataFrame) (b : PriceBar) (rest : list PriceBar) :
  bars data = b :: rest ->
  exists m, pullback_mask data = false :: m /\ pullbacks data = select m rest.
Proof.
  intros E. unfold pullbacks, pullback_mask. rewrite E. cbn [map].
  destruct (pct_change_first (Close b) (map Close rest)) as (x & r & ->).
  cbn [map]. rewrite first_change_not_below.
  eexists. split; [reflexivity|]. rewrite select_cons. reflexivity.
Qed.

(** * Volume dry-up *)

Section VolumeDryUp.

Variable series_mean : list float -> float.

Lemma pullback_mask_spec (data : DataFrame) (i : nat) :
  nth_error (pullback_mask data) i = Some true <->
  exists p, nth_error (pct_change (map Close (bars data))) i = Some p /\
            (p <? -0.05) = true.
Proof.
  unfold pullback_mask. rewrite nth_error_map.
  destruct (nth_error (pct_change (map Close (bars data))) i) as [p|]; simpl.
  - split.
    + intros H. exists p. split; [reflexivity | congruence].
    + intros (q & Hq & Hlt). congruence.
  - split; [discriminate | intros (q & Hq & _); discriminate].
Qed.

(** C7. [volume_dry_up] is false on an empty frame and true on a frame
    without pullback rows; otherwise it is true exactly when the volume of
    every pullback row is strictly below the mean volume of the whole frame,
    so one pullback row whose volume is at least that mean makes it false.
    The pullback rows are the rows whose percentage change of the close is
    below -0.05. *)
Theorem volume_dry_up_spec (data : DataFrame) :
  (bars data = [] -> volume_dry_up series_mean data = false) /\
  (bars data <> [] -> pullbacks data = [] ->
     volume_dry_up series_mean data = true) /\
  (bars data <> [] ->
     (volume_dry_up series_mean data = true <->
      forall b, In b (pullbacks data) ->
        (Volume b <? series_mean (map Volume (bars data))) = true)) /\
  (bars data <> [] ->
     forall b, In b (pullbacks data) ->
       (series_mean (map Volume (bars data)) <=? Volume b) = true ->
       volume_dry_up series_mean data = false) /\
  (forall b, In b (pullbacks data) <->
     exists i p, nth_error (bars data) i = Some b /\
       nth_error (pct_change (map Close (bars data))) i = Some p /\
       (p <? -0.05) = true).
Proof.
  assert (Iff : bars data <> [] ->
     (volume_dry_up series_mean data = true <->
      forall b, In b (pullbacks data) ->
        (Volume b <? series_mean (map Volume (bars data))) = true)).
  { intros Hne. unfold volume_dry_up, empty.
    destruct (bars data) as [|b0 rest] eqn:E; [contradiction|].
    destruct (pullbacks data) as [|p ps] eqn:P.
    - split; [intros _ b [] | reflexivity].
    - apply forallb_forall. }
  split; [|split; [|split; [exact Iff|split]]].
  - intros E. unfold volume_dry_up, empty. rewrite E. reflexivity.
  - intros Hne P. apply Iff; [exact Hne|]. rewrite P. intros b [].
  - intros Hne b Hin Hge.
    destruct (volume_dry_up series_mean data) eqn:V; [|reflexivity].
    pose proof (proj1 (Iff Hne) eq_refl b Hin) as L.
    apply leb_not_ltb in Hge. congruence.
  - intros b. unfold pullbacks. rewrite In_select. split.
    + intros (i & Hm & Hb). apply pullback_mask_spec in Hm.
      destruct Hm as (p & Hp & Hlt). exists i, p. repeat split; assumption.
    + intros (i & p & Hb & Hp & Hlt). exists i. split; [|exact Hb].
      apply pullback_mask_spec. exists p. split; assumption.
Qed.

End VolumeDryUp.

Lemma volume_dry_up_spec_witness :
  volume_dry_up mean_skipna dry_frame = true /\
  volume_dry_up mean_skipna wet_frame = false.
Proof.
  split.
  - apply (proj1 (proj2 (proj2 (volume_dry_up_spec mean_skipna dry_frame)))).
    + discriminate.
    + intros b Hb. vm_compute in Hb. destruct Hb as [<- | []].
      vm_compute. reflexivity.
  - apply (proj1 (proj2 (proj2 (proj2 (volume_dry_up_spec mean_skipna wet_frame)))))
      with (b := bar 2 90 60).
    + discriminate.
    + vm_compute. left. reflexivity.
    + vm_compute. reflexivity.
Defined.

(** C10. The first row of a frame is never a pullback row, its change being
    undefined, and so [volume_dry_up] is true on every frame of one row. *)
Theorem first_bar_never_pullback :
  (forall data, nth 0 (pullback_mask data) false = false) /\
  (forall data b, In b (pullbacks data) ->
     exists i, nth_error (bars data) (S i) = Some b) /\
  (forall series_mean b cols,
     volume_dry_up series_mean (mkFrame [b] cols) = true).
Proof.
  split; [|split].
  - intros data. destruct (bars data) as [|b rest] eqn:E.
    + unfold pullback_mask. rewrite E. reflexivity.
    + destruct (pullback_mask_first data b rest E) as (m & -> & _). reflexivity.
  - intros data b Hin. destruct (bars data) as [|b0 rest] eqn:E.
    + unfold pullbacks in Hin. rewrite E in Hin.
      unfold select in Hin. rewrite combine_nil in Hin. destruct Hin.
    + destruct (pullback_mask_first data b0 rest E) as (m & _ & P).
      rewrite P in Hin. apply In_select in Hin.
      destruct Hin as (i & _ & Hb). exists i. exact Hb.
  - intros series_mean b cols. unfold volume_dry_up, empty. cbn [bars].
    destruct (pullback_mask_first (mkFrame [b] cols) b [] eq_refl) as (m & _ & P).
    rewrite P. unfold select. rewrite combine_nil. reflexivity.
Qed.

(** * Relative strength *)

(** On two frames with the same dates, row for row, the aligned quotient
    is the row-wise one. *)
Lemma ratio_series_aligned (stock market : list PriceBar) :
  map Date stock = map Date market ->
  ratio_series stock market
  = map (fun ab => Close (fst ab) / Close (snd ab) * 100) (combine stock market).
Proof.
  revert market. induction stock as [|a stock IH]; intros [|b market] H;
    try discriminate; [reflexivity|].
  injection H as Hd Ht. cbn [ratio_series combine map fst snd].
  rewrite Hd, Z.ltb_irrefl. f_equal. apply IH, Ht.
Qed.

Lemma iloc_last_default (l : list float) :
  l <> [] -> iloc l (-1) = Ok (last l nan).
Proof.
  intros H. rewrite (app_removelast_last nan H) at 1. apply iloc_last.
Qed.

Section RelativeStrength.

Variable series_mean : list float -> float.

(** C9. [relative_strength] is false when either frame is empty; on two
    frames of the same dates it is true exactly when the last value of the
    column [stock close / benchmark close * 100] is strictly above the mean
    of that column. *)
Theorem relative_strength_spec (stock_data market_data : DataFrame) :
  (bars stock_data = [] \/ bars market_data = [] ->
   relative_strength series_mean stock_data market_data = Ok false) /\
  (bars stock_data <> [] ->
   map Date (bars stock_data) = map Date (bars market_data) ->
   relative_strength series_mean stock_data market_data
   = Ok (series_mean
           (map (fun ab => Close (fst ab) / Close (snd ab) * 100)
                (combine (bars stock_data) (bars market_data)))
         <? last (map (fun ab => Close (fst ab) / Close (snd ab) * 100)
                      (combine (bars stock_data) (bars market_data))) nan)).
Proof.
  unfold relative_strength, empty. split.
  - intros [E|E]; rewrite E; [reflexivity|].
    destruct (bars stock_data); reflexivity.
  - intros Hne Hd. rewrite (ratio_series_aligned _ _ Hd).
    destruct (bars stock_data) as [|a s] eqn:Es; [contradiction|].
    destruct (bars market_data) as [|b m] eqn:Em; [discriminate|].
    cbn [orb]. rewrite iloc_last_default; [reflexivity|].
    cbn [combine map]. discriminate.
Qed.

End RelativeStrength.

Lemma relative_strength_spec_witness :
  relative_strength mean_skipna rising_stock flat_market = Ok true /\
  relative_strength mean_skipna flat_market (mkFrame [] []) = Ok false.
Proof.
  split.
  - rewrite (proj2 (relative_strength_spec mean_skipna rising_stock flat_market)).
    + vm_compute. reflexivity.
    + discriminate.
    + reflexivity.
  - apply (proj1 (relative_strength_spec mean_skipna flat_market (mkFrame [] []))).
    right. reflexivity.
Defined.

(** * Base on base *)

(** The loop of [detect_base_on_base] runs once for every full window but
    the last one that fits: [range(window, len(data), window)] stops short
    of [len(data)]. *)
Lemma windows_count (data : list PriceBar) :
  length (consolidations_of data) = ((length data - 1) / window)%nat.
Proof.
  unfold consolidations_of, py_range_step, window.
  rewrite !length_map, length_seq.
  destruct (Nat.lt_ge_cases (length data) 20) as [H|H].
  - replace (length data - 20 + 20 - 1)%nat with 19%nat by lia.
    rewrite (Nat.div_small (length data - 1) 20) by lia. reflexivity.
  - f_equal. lia.
Qed.

(** Every slice the loop takes is a full window. *)
Lemma window_full (data : list PriceBar) (i : nat) :
  In i (py_range_step window (length data) window) ->
  length (iloc_slice (i - window) i data) = window.
Proof.
  unfold py_range_step, window. intros H.
  apply in_map_iff in H. destruct H as (k & <- & Hk).
  apply in_seq in Hk. destruct Hk as [_ Hk]. cbn [Nat.add] in Hk.
  assert (Hq : (20 * ((length data - 20 + 20 - 1) / 20) <= length data - 20 + 20 - 1)%nat)
    by (apply Nat.Div0.mul_div_le).
  unfold iloc_slice. rewrite length_firstn, length_skipn. nia.
Qed.

Lemma last_two_short (c : list bool) : (length c < 2)%nat -> last_two c = false.
Proof.
  intros H. unfold last_two.
  rewrite <- length_rev in H.
  destruct (rev c) as [|c1 [|c2 r]]; [reflexivity | reflexivity | simpl in H; lia].
Qed.

(** X4. A frame of at most forty rows never shows a base on base. *)
Lemma base_on_base_needs_41 (data : DataFrame) :
  (length (bars data) <= 40)%nat -> fst (detect_base_on_base data) = false.
Proof.
  intros H. unfold detect_base_on_base.
  destruct (empty data); [reflexivity|]. cbn [fst assign bars].
  apply last_two_short. rewrite windows_count. unfold window.
  assert (Hd : ((length (bars data) - 1) / 20 <= 39 / 20)%nat)
    by (apply Nat.Div0.div_le_mono; lia).
  change (39 / 20)%nat with 1%nat in Hd. lia.
Qed.

(** X5. A frame whose length is [k] windows exactly is scanned over
    [k - 1] of them. *)
Lemma windows_count_multiple (data : list PriceBar) (k : nat) :
  length data = (k * window)%nat -> (1 <= k)%nat ->
  length (consolidations_of data) = (k - 1)%nat.
Proof.
  intros H Hk. rewrite windows_count, H. unfold window.
  symmetry. apply (Nat.div_unique _ 20 (k - 1) 19); lia.
Qed.

(** C4. Forty rows at a constant close hold two full windows, each of them
    a consolidation, yet the loop scans the first window only and
    [detect_base_on_base] answers false. *)
Theorem base_on_base_forty :
  length (bars flat40) = 40%nat /\
  is_consolidation (iloc_slice 0 20 (bars flat40)) = true /\
  is_consolidation (iloc_slice 20 40 (bars flat40)) = true /\
  consolidations_of (bars flat40) = [true] /\
  fst (detect_base_on_base flat40) = false.
Proof. vm_compute. repeat split. Qed.

Example base_on_base_forty_one : fst (detect_base_on_base flat41) = true.
Proof. vm_compute. reflexivity. Qed.

(** * What [detect_base_on_base] does to its frame *)

Lemma get_set_same (name : string) (col : list float)
  (cols : list (string * list float)) :
  get_column name (set_column name col cols) = Some col.
Proof.
  induction cols as [|[n c] rest IH]; cbn [set_column get_column].
  - rewrite String.eqb_refl. reflexivity.
  - destruct (String.eqb n name) eqn:E; cbn [get_column].
    + rewrite String.eqb_refl. reflexivity.
    + rewrite E. exact IH.
Qed.

Lemma get_set_other (name other : string) (col : list float)
  (cols : list (string * list float)) :
  other <> name ->
  get_column other (set_column name col cols) = get_column other cols.
Proof.
  intros Hne. induction cols as [|[n c] rest IH]; cbn [set_column get_column].
  - destruct (String.eqb name other) eqn:E; [|reflexivity].
    apply String.eqb_eq in E. congruence.
  - destruct (String.eqb n name) eqn:E; cbn [get_column].
    + apply String.eqb_eq in E. subst n.
      destruct (String.eqb name other) eqn:E'; [|reflexivity].
      apply String.eqb_eq in E'. congruence.
    + rewrite IH. reflexivity.
Qed.

(** C5, as the program has it.  [detect_base_on_base] leaves an empty frame
    as it is.  On any other frame it keeps every row and every column but
    one: the column [pct_change] is set to the percentage change of the
    close, added when the frame had none.  Its answer is a function of the
    rows alone. *)
Theorem detect_base_on_base_frame (data : DataFrame) :
  bars (snd (detect_base_on_base data)) = bars data /\
  (bars data = [] -> snd (detect_base_on_base data) = data) /\
  (bars data <> [] ->
     added (snd (detect_base_on_base data))
     = set_column "pct_change" (pct_change (map Close (bars data))) (added data)) /\
  (bars data <> [] ->
     get_column "pct_change" (added (snd (detect_base_on_base data)))
     = Some (pct_change (map Close (bars data)))) /\
  (forall name, name <> "pct_change"%string ->
     get_column name (added (snd (detect_base_on_base data)))
     = get_column name (added data)) /\
  fst (detect_base_on_base data) = last_two (consolidations_of (bars data)).
Proof.
  unfold detect_base_on_base, empty.
  destruct (bars data) as [|b rest] eqn:E; cbn [fst snd assign bars added].
  - rewrite E. repeat split; try reflexivity; intros H; contradiction.
  - rewrite E. split; [reflexivity|]. split; [discriminate|].
    split; [reflexivity|]. split; [intros _; apply get_set_same|].
    split; [|reflexivity].
    intros name Hne. apply get_set_other, Hne.
Qed.

Lemma detect_base_on_base_frame_witness :
  snd (detect_base_on_base (mkFrame [] [])) = mkFrame [] [] /\
  get_column "pct_change" (added (snd (detect_base_on_base rising_stock)))
  = Some (pct_change [100; 110]).
Proof.
  split.
  - apply (proj1 (proj2 (detect_base_on_base_frame (mkFrame [] [])))). reflexivity.
  - apply (proj1 (proj2 (proj2 (proj2 (detect_base_on_base_frame rising_stock))))).
    discriminate.
Defined.

(** C5, as stated, fails: the call adds a column to a frame that had none. *)
Lemma detect_base_on_base_mutates :
  added rising_stock = [] /\
  added (snd (detect_base_on_base rising_stock))
  = [("pct_change"%string, pct_change [100; 110])] /\
  snd (detect_base_on_base rising_stock) <> rising_stock.
Proof.
  split; [reflexivity|]. split; [reflexivity|].
  intros H. apply (f_equal added) in H. discriminate H.
Qed.

(** * The cascade *)


(** The last growth [check_deceleration] compares is the growth
    [quarterly_growth] returns, unless that is the fallback 0: a true answer
    puts the quarterly growth below 25. *)
Lemma decelerating_growth_below (quarterly : list float) (q : float) :
  quarterly_growth quarterly = Ok q ->
  check_deceleration quarterly = Ok true ->
  (q <? 25) = true.
Proof.
  intros Eq D.
  destruct (Nat.lt_ge_cases (length quarterly) 3) as [H|H].
  - rewrite check_deceleration_short in D by exact H. discriminate D.
  - destruct (Nat.eq_dec (length quarterly) 3) as [H3|H3].
    + rewrite check_deceleration_raises in D by exact H3. discriminate D.
    + assert (H4 : (4 <= length quarterly)%nat) by lia.
      destruct (split_last4 float quarterly H4) as (pre & w & x & y & z & ->).
      rewrite check_deceleration_four in D.
      change (pre ++ [w; x; y; z]) with (pre ++ [w; x] ++ [y; z]) in Eq.
      rewrite app_assoc, quarterly_growth_two in Eq. injection Eq as <-.
      injection D as D.
      apply andb_true_iff in D. destruct D as [_ D].
      apply ltb_15_25 in D. unfold growth in D.
      destruct (y =? 0); [reflexivity | exact D].
Qed.

(** X3. The quarterly growth [fetch_financials] stores is the last of the three
    growths [check_deceleration] compares, or 0: a dictionary it returned
    never holds a growth that passes the threshold beside a decelerating
    column, and the second half of the first test never decides a screen. *)
Lemma fetched_growth_excludes_deceleration
  (quarterly : list float) (annual : EarningsFrame) (info : Info)
  (fin : Financials) :
  fetch_financials quarterly annual info = Some fin ->
  (q_eps_growth fin <? 25) = false ->
  check_deceleration quarterly <> Ok true.
Proof.
  intros Hf Hq D.
  destruct (fetch_financials_inv _ _ _ _ Hf) as (q & a & Eq & _ & ->).
  cbn [q_eps_growth] in Hq.
  rewrite (decelerating_growth_below _ _ Eq D) in Hq. discriminate Hq.
Qed.

Section Cascade.

Variable series_mean : list float -> float.
Variable rolling_mean : nat -> list float -> float.


(** C1. A quarterly column of three entries whose growth qualifies makes
    [screen_stock] raise [IndexError]: neither a result nor a rejection,
    whatever the prices and the benchmark are.  So it is for every annual
    frame whose growth computes; one whose growth raises leaves no
    fundamentals, and the ticker is skipped before the first test. *)
Theorem screen_stock_raises (tick : string) (annual : EarningsFrame)
  (info : Info) (price_data market_data : DataFrame) :
  screen_stock series_mean rolling_mean tick
    (fetch_financials [1; 1; 2] three_years info) price_data market_data
  = Raise IndexError /\
  screen_stock series_mean rolling_mean tick
    (fetch_financials [1; 1; 2] annual info) price_data market_data
  = match annual_growth annual with
    | Ok _ => Raise IndexError
    | Raise _ => Ok None
    end.
Proof.
  assert (E : quarterly_growth [1; 1; 2] = Ok 100) by (vm_compute; reflexivity).
  assert (R : forall frame a,
             annual_growth frame = Ok a ->
             screen_stock series_mean rolling_mean tick
               (fetch_financials [1; 1; 2] frame info) price_data market_data
             = Raise IndexError).
  { intros frame a Ha.
    destruct (fetch_financials_computed [1; 1; 2] frame info a Ha)
      as (q & Eq & ->).
    rewrite E in Eq. injection Eq as <-. reflexivity. }
  split.
  - apply (R three_years 100). vm_compute. reflexivity.
  - destruct (annual_growth annual) as [a|e] eqn:Ha.
    + apply (R annual a Ha).
    + rewrite (fetch_financials_none _ _ _ _ Ha). reflexivity.
Qed.

End Cascade.



(** C2. With a benchmark of two rows, far short of the 200 the moving
    average needs, and every other criterion met, [screen_stock] returns a
    result: the average is NaN, the close is not below it, and the eighth
    test does not reject. *)
Theorem short_benchmark_passes :
  (length (bars flat_market) < 200)%nat /\
  rolling_mean_last mean_last 200 (map Close (bars flat_market)) = nan /\
  screen_stock mean_skipna mean_last "ACME"
    (fetch_financials [1; 2] three_years sound_info) rising_stock flat_market
  = Ok (Some (mkResult "ACME" 100 100 50000000 35 false)).
Proof.
  split; [simpl; lia|]. split; [reflexivity|].
  vm_compute. reflexivity.
Qed.

(** * The cascade as a conjunction *)

Lemma ratio_series_nonempty (stock market : list PriceBar) :
  stock <> [] -> ratio_series stock market <> [].
Proof.
  destruct stock as [|a stock]; [contradiction|]. intros _.
  destruct market as [|b market]; cbn [ratio_series map]; [discriminate|].
  destruct (Date a <? Date b)%Z; [discriminate|].
  destruct (Date b <? Date a)%Z; discriminate.
Qed.

Lemma empty_false (data : DataFrame) : empty data = false -> bars data <> [].
Proof. unfold empty. destruct (bars data); [discriminate | discriminate]. Qed.

Lemma last_close (data : DataFrame) :
  empty data = false ->
  iloc (map Close (bars data)) (-1) = Ok (last (map Close (bars data)) nan).
Proof.
  intros E. apply iloc_last_default. apply empty_false in E.
  destruct (bars data); [contradiction | discriminate].
Qed.

Section CascadeConjunction.

Variable series_mean : list float -> float.
Variable rolling_mean : nat -> list float -> float.

(** [relative_strength] never raises. *)
Lemma relative_strength_total (stock_data market_data : DataFrame) :
  exists r, relative_strength series_mean stock_data market_data = Ok r.
Proof.
  unfold relative_strength.
  destruct (empty stock_data) eqn:Es; [eexists; reflexivity|].
  destruct (empty market_data) eqn:Em; [eexists; reflexivity|].
  cbn [orb]. rewrite iloc_last_default; [eexists; reflexivity|].
  apply ratio_series_nonempty, empty_false, Es.
Qed.

(** X2. On a benchmark shorter than 200 rows the moving average is NaN and
    the eighth test passes whatever the closes are. *)
Lemma criterion_8_short_benchmark (market_data : DataFrame) :
  bars market_data <> [] -> (length (bars market_data) < 200)%nat ->
  negb (empty market_data)
  && negb (last (map Close (bars market_data)) nan
           <? rolling_mean_last rolling_mean 200 (map Close (bars market_data)))
  = true.
Proof.
  intros Hne Hlen. unfold empty, rolling_mean_last.
  destruct (bars market_data) as [|b rest] eqn:E; [contradiction|].
  rewrite length_map.
  destruct (Nat.ltb_spec (length (b :: rest)) 200) as [_|H]; [|lia].
  rewrite ltb_nan_r. reflexivity.
Qed.

(** X1. Away from a quarterly column of three entries [screen_stock] never
    raises, and it returns a result exactly when the eight criteria hold
    together: the order of the tests decides nothing. *)
Theorem screen_stock_cascade (tick : string) (fin : Financials)
  (price_data market_data : DataFrame) :
  length (quarterly_earnings fin) <> 3%nat ->
  exists d r,
    check_deceleration (quarterly_earnings fin) = Ok d /\
    relative_strength series_mean price_data market_data = Ok r /\
    screen_stock series_mean rolling_mean tick (Some fin) price_data market_data
    = Ok (if criteria_hold series_mean rolling_mean fin d r price_data market_data
          then Some (mkResult tick (q_eps_growth fin) (a_eps_growth fin)
                       (shares_out fin) (institutional_own fin)
                       (fst (detect_base_on_base price_data)))
          else None).
Proof.
  intros H3.
  destruct (check_deceleration_total _ H3) as [d Hd].
  destruct (relative_strength_total price_data market_data) as [r Hr].
  exists d, r. split; [exact Hd|]. split; [exact Hr|].
  unfold screen_stock, criteria_hold. rewrite Hd, Hr.
  destruct (q_eps_growth fin <? 25); cbn [or_else bind negb andb]; [reflexivity|].
  destruct d; cbn [negb andb]; [reflexivity|].
  destruct (a_eps_growth fin <? 25); cbn [negb andb]; [reflexivity|].
  destruct (empty price_data) eqn:Ep; cbn [or_else bind negb andb]; [reflexivity|].
  rewrite (last_close _ Ep). cbn [bind].
  destruct (last (map Close (bars price_data)) nan
            <? series_max (map Close (bars price_data)) * 0.95);
    cbn [negb andb]; [reflexivity|].
  destruct (200000000 <? shares_out fin)%Z; cbn [negb andb]; [reflexivity|].
  destruct (volume_dry_up series_mean price_data); cbn [negb andb]; [|reflexivity].
  destruct r; cbn [negb andb]; [|reflexivity].
  destruct (institutional_own fin <? 30); cbn [negb andb]; [reflexivity|].
  destruct (empty market_data) eqn:Em; cbn [or_else bind negb andb]; [reflexivity|].
  rewrite (last_close _ Em). cbn [bind].
  destruct (last (map Close (bars market_data)) nan
            <? rolling_mean_last rolling_mean 200 (map Close (bars market_data)));
    reflexivity.
Qed.

End CascadeConjunction.

Lemma criterion_8_short_benchmark_witness :
  negb (empty flat_market)
  && negb (last (map Close (bars flat_market)) nan
           <? rolling_mean_last mean_last 200 (map Close (bars flat_market)))
  = true.
Proof.
  apply (criterion_8_short_benchmark mean_last flat_market);
    [discriminate | simpl; lia].
Defined.

Lemma screen_stock_cascade_witness :
  exists d r,
    check_deceleration [1; 2] = Ok d /\
    relative_strength mean_skipna rising_stock flat_market = Ok r /\
    screen_stock mean_skipna mean_last "ACME"
      (Some (mkFinancials 100 100 50000000 35 [1; 2])) rising_stock flat_market
    = Ok (if criteria_hold mean_skipna mean_last
               (mkFinancials 100 100 50000000 35 [1; 2]) d r
               rising_stock flat_market
          then Some (mkResult "ACME" 100 100 50000000 35
                       (fst (detect_base_on_base rising_stock)))
          else None).
Proof.
  apply (screen_stock_cascade mean_skipna mean_last "ACME"
           (mkFinancials 100 100 50000000 35 [1; 2]) rising_stock flat_market).
  simpl. lia.
Defined.

Lemma fetched_growth_excludes_deceleration_witness :
  check_deceleration [100; 150; 180; 360] <> Ok true.
Proof.
  apply (fetched_growth_excludes_deceleration [100; 150; 180; 360] three_years
           sound_info (mkFinancials 100 100 50000000 (0.35 * 100)
                         [100; 150; 180; 360])).
  - vm_compute. reflexivity.
  - vm_compute. reflexivity.
Defined.

Lemma base_on_base_needs_41_witness : fst (detect_base_on_base flat40) = false.
Proof.
  apply (base_on_base_needs_41 flat40). apply Nat.leb_le. reflexivity.
Defined.

Lemma windows_count_multiple_witness :
  length (consolidations_of (bars flat40)) = 1%nat.
Proof.
  apply (windows_count_multiple (bars flat40) 2); [reflexivity | lia].
Defined.

(** * Acceleration, and the annual growth *)

(** X6. [check_accelerating_earnings] never raises.  It is false on fewer
    than three entries; on three or more it is true exactly when the last
    growth is above the one before it and above 25, so a last growth of at
    most 25 makes it false however fast it has risen. *)
Theorem check_accelerating_spec (s : list float) :
  (exists b, check_accelerating_earnings s = Ok b) /\
  ((length s < 3)%nat -> check_accelerating_earnings s = Ok false) /\
  (forall pre x y z, s = pre ++ [x; y; z] ->
     check_accelerating_earnings s
     = Ok ((growth y x <? growth z y) && (25 <? growth z y))) /\
  (forall pre x y z, s = pre ++ [x; y; z] ->
     (growth z y <=? 25) = true -> check_accelerating_earnings s = Ok false).
Proof.
  split; [apply check_accelerating_total|].
  split; [apply check_accelerating_short|].
  split; [intros pre x y z ->; apply check_accelerating_three|].
  intros pre x y z -> H. rewrite check_accelerating_three.
  rewrite (leb_not_ltb _ _ H). apply f_equal, andb_false_r.
Qed.

Lemma check_accelerating_spec_witness :
  check_accelerating_earnings [5] = Ok false /\
  check_accelerating_earnings [100; 110; 132] = Ok false.
Proof.
  split.
  - apply (proj1 (proj2 (check_accelerating_spec [5]))). simpl. lia.
  - apply (proj2 (proj2 (proj2 (check_accelerating_spec [100; 110; 132])))
             [] 100 110 132); vm_compute; reflexivity.
Defined.

(** X7. The annual growth is 0 on fewer than three rows.  On three or
    more it is read from the last three rows.  Where the labels are no
    integers they are read by position, and the growth is the mean of the
    two growths between them, whatever stands before.  Where the labels are
    integers they are read by label: the growth is that mean when the three
    rows are labelled 0, 1 and 2, and the attempt raises [KeyError] when one
    of these labels is missing from them, as under the default index of a
    frame of more than three rows and under year labels. *)
Theorem annual_growth_spec (annual : EarningsFrame) :
  ((length (values_of annual) < 3)%nat -> annual_growth annual = Ok 0) /\
  (forall pre x y z, annual = NameIndexed (pre ++ [x; y; z]) ->
     annual_growth annual
     = Ok (((y - x) / abs x * 100 + (z - y) / abs y * 100) / 2)) /\
  (forall pre x y z,
     annual = IntIndexed (pre ++ [(0%Z, x); (1%Z, y); (2%Z, z)]) ->
     annual_growth annual
     = Ok (((y - x) / abs x * 100 + (z - y) / abs y * 100) / 2)) /\
  (forall rows, annual = IntIndexed rows -> (3 <= length rows)%nat ->
     ~ In 0%Z (map fst (tail_slice 3 rows))
     \/ ~ In 1%Z (map fst (tail_slice 3 rows))
     \/ ~ In 2%Z (map fst (tail_slice 3 rows)) ->
     annual_growth annual = Raise KeyError).
Proof.
  split; [apply annual_growth_short|].
  split; [intros pre x y z ->; apply annual_growth_named|].
  split; [intros pre x y z ->; apply annual_growth_labelled|].
  intros rows -> Hlen H. apply annual_growth_key_error; assumption.
Qed.

Lemma annual_growth_spec_witness :
  annual_growth (NameIndexed [7; 8]) = Ok 0 /\
  annual_growth (NameIndexed [9; 1; 2; 4]) = Ok 100 /\
  annual_growth three_years = Ok 100 /\
  annual_growth four_years = Raise KeyError.
Proof.
  split; [|split; [|split]].
  - apply (proj1 (annual_growth_spec (NameIndexed [7; 8]))). simpl. lia.
  - apply (proj1 (proj2 (annual_growth_spec (NameIndexed [9; 1; 2; 4])))
             [9] 1 2 4).
    reflexivity.
  - apply (proj1 (proj2 (proj2 (annual_growth_spec three_years))) [] 1 2 4).
    reflexivity.
  - apply (proj2 (proj2 (proj2 (annual_growth_spec four_years)))
             [(2020%Z, 9); (2021%Z, 1); (2022%Z, 2); (2023%Z, 4)]).
    + reflexivity.
    + simpl. lia.
    + left. vm_compute. intros [H|[H|[H|[]]]]; discriminate H.
Defined.

(** A float that compares equal to zero is a zero. *)
Lemma eqb_zero_SF (x : float) :
  (x =? 0) = true -> exists s, Prim2SF x = S754_zero s.
Proof.
  rewrite eqb_spec. change (Prim2SF 0) with (S754_zero false).
  unfold SFeqb, SFcompare.
  destruct (Prim2SF x) as [s|s| |s m e]; try discriminate.
  - intros _. exists s. reflexivity.
  - destruct s; discriminate.
  - destruct s; discriminate.
Qed.

(** The growth from a zero to a zero is a NaN. *)
Lemma growth_zero_zero (x y : float) :
  (x =? 0) = true -> (y =? 0) = true -> Prim2SF (growth y x) = S754_nan.
Proof.
  intros Hx Hy. destruct (eqb_zero_SF x Hx) as [sx Ex].
  destruct (eqb_zero_SF y Hy) as [sy Ey].
  unfold growth. rewrite mul_spec, div_spec, sub_spec, abs_spec, Ex, Ey.
  destruct sx, sy; reflexivity.
Qed.

Lemma SF_nan_not_below (g c : float) :
  Prim2SF g = S754_nan -> (g <? c) = false.
Proof. intros H. rewrite ltb_spec, H. reflexivity. Qed.

Lemma SF_nan_is_nan (g : float) : Prim2SF g = S754_nan -> is_nan g = true.
Proof. intros H. unfold is_nan. rewrite eqb_spec, H. reflexivity. Qed.

(** X8. Where the annual growth computes (labels that are no integers, or
    the last three rows labelled 0, 1, 2) and the first two of the last
    three values are zero, it is a NaN, and the test "below 25" of the
    second criterion does not reject it. *)
Theorem annual_growth_zero_zero (annual : EarningsFrame) (x y z : float) :
  (x =? 0) = true -> (y =? 0) = true ->
  (exists pre, annual = NameIndexed (pre ++ [x; y; z]))
  \/ (exists pre, annual = IntIndexed (pre ++ [(0%Z, x); (1%Z, y); (2%Z, z)])) ->
  exists g, annual_growth annual = Ok g /\
            is_nan g = true /\ (g <? 25) = false.
Proof.
  intros Hx Hy H. exists ((growth y x + growth z y) / 2). split.
  - destruct H as [[pre ->]|[pre ->]];
      [apply annual_growth_named | apply annual_growth_labelled].
  - assert (N : Prim2SF ((growth y x + growth z y) / 2) = S754_nan).
    { rewrite div_spec, add_spec, (growth_zero_zero x y Hx Hy). reflexivity. }
    split; [apply SF_nan_is_nan, N | apply SF_nan_not_below, N].
Qed.

Lemma annual_growth_zero_zero_witness :
  exists g, annual_growth (IntIndexed [(0%Z, 0); (1%Z, 0); (2%Z, 3)]) = Ok g /\
            is_nan g = true /\ (g <? 25) = false.
Proof.
  apply (annual_growth_zero_zero (IntIndexed [(0%Z, 0); (1%Z, 0); (2%Z, 3)])
           0 0 3); [reflexivity | reflexivity |].
  right. exists []. reflexivity.
Defined.

(** * Frames that end on different dates *)





Section MisalignedEnd.

Variable series_mean : list float -> float.


End MisalignedEnd.


(** * When [screen_stock] raises, and what a result guarantees *)

Section CascadeOutcome.

Variable series_mean : list float -> float.
Variable rolling_mean : nat -> list float -> float.

(** The cascade evaluated: once the first test is decided, the outcome is
    the conjunction of the criteria. *)
Lemma screen_stock_eval (tick : string) (fin : Financials)
  (price_data market_data : DataFrame) (d r : bool) :
  (q_eps_growth fin <? 25) = true
  \/ check_deceleration (quarterly_earnings fin) = Ok d ->
  relative_strength series_mean price_data market_data = Ok r ->
  screen_stock series_mean rolling_mean tick (Some fin) price_data market_data
  = Ok (if criteria_hold series_mean rolling_mean fin d r price_data market_data
        then Some (mkResult tick (q_eps_growth fin) (a_eps_growth fin)
                     (shares_out fin) (institutional_own fin)
                     (fst (detect_base_on_base price_data)))
        else None).
Proof.
  intros Hd Hr. unfold screen_stock, criteria_hold. rewrite Hr.
  destruct (q_eps_growth fin <? 25); cbn [or_else bind negb andb]; [reflexivity|].
  destruct Hd as [Hd|Hd]; [discriminate|]. rewrite Hd. cbn [bind].
  destruct d; cbn [negb andb]; [reflexivity|].
  destruct (a_eps_growth fin <? 25); cbn [negb andb]; [reflexivity|].
  destruct (empty price_data) eqn:Ep; cbn [or_else bind negb andb]; [reflexivity|].
  rewrite (last_close _ Ep). cbn [bind].
  destruct (last (map Close (bars price_data)) nan
            <? series_max (map Close (bars price_data)) * 0.95);
    cbn [negb andb]; [reflexivity|].
  destruct (200000000 <? shares_out fin)%Z; cbn [negb andb]; [reflexivity|].
  destruct (volume_dry_up series_mean price_data); cbn [negb andb]; [|reflexivity].
  destruct r; cbn [negb andb]; [|reflexivity].
  destruct (institutional_own fin <? 30); cbn [negb andb]; [reflexivity|].
  destruct (empty market_data) eqn:Em; cbn [or_else bind negb andb]; [reflexivity|].
  rewrite (last_close _ Em). cbn [bind].
  destruct (last (map Close (bars market_data)) nan
            <? rolling_mean_last rolling_mean 200 (map Close (bars market_data)));
    reflexivity.
Qed.



Lemma screen_stock_some_inv (tick : string) (financials : option Financials)
  (price_data market_data : DataFrame) (res : ScreenResult) :
  screen_stock series_mean rolling_mean tick financials price_data market_data
  = Ok (Some res) ->
  exists fin,
    financials = Some fin /\
    res = mkResult tick (q_eps_growth fin) (a_eps_growth fin) (shares_out fin)
            (institutional_own fin) (fst (detect_base_on_base price_data)) /\
    (res_q_eps_growth res <? 25) = false /\
    (res_a_eps_growth res <? 25) = false /\
    (res_shares_out res <= 200000000)%Z /\
    (res_institutional_own res <? 30) = false /\
    check_deceleration (quarterly_earnings fin) = Ok false /\
    bars price_data <> [] /\ bars market_data <> [] /\
    volume_dry_up series_mean price_data = true /\
    relative_strength series_mean price_data market_data = Ok true.
Proof.
  intros H. destruct financials as [fin|]; [|discriminate H].
  exists fin. split; [reflexivity|].
  destruct (relative_strength_total series_mean price_data market_data) as [r Hr].
  assert (C : exists d,
             check_deceleration (quarterly_earnings fin) = Ok d /\
             criteria_hold series_mean rolling_mean fin d r price_data market_data
             = true /\
             res = mkResult tick (q_eps_growth fin) (a_eps_growth fin)
                     (shares_out fin) (institutional_own fin)
                     (fst (detect_base_on_base price_data))).
  { destruct (q_eps_growth fin <? 25) eqn:Q.
    - rewrite (screen_stock_eval tick fin _ _ false r (or_introl Q) Hr) in H.
      unfold criteria_hold in H. rewrite Q in H. discriminate H.
    - destruct (check_deceleration (quarterly_earnings fin)) as [d|e] eqn:D.
      + exists d. split; [reflexivity|].
        rewrite (screen_stock_eval tick fin _ _ d r (or_intror D) Hr) in H.
        destruct (criteria_hold series_mean rolling_mean fin d r
                    price_data market_data); [|discriminate H].
        injection H as <-. split; reflexivity.
      + unfold screen_stock in H. rewrite Q in H. cbn [or_else] in H.
        rewrite D in H. discriminate H. }
  destruct C as (d & Hd & C & ->). split; [reflexivity|].
  unfold criteria_hold in C.
  repeat (apply andb_true_iff in C; destruct C as [C ?]).
  repeat match goal with
         | H : negb _ = true |- _ => apply negb_true_iff in H
         | H : (_ && _) = true |- _ => apply andb_true_iff in H; destruct H
         end.
  subst. cbn [res_q_eps_growth res_a_eps_growth res_shares_out
              res_institutional_own].
  repeat split; try assumption.
  - apply Z.ltb_ge. assumption.
  - apply empty_false. assumption.
  - apply empty_false. assumption.
Qed.

(** X11. A result [screen_stock] returns carries the ticker and the four
    metrics it was given, unchanged, and it vouches for them: neither growth
    is below 25, the shares do not exceed 200 million, the institutional
    holding is not below 30, [check_deceleration] answered false, both
    frames have rows, the volume dried up and the relative strength holds. *)
Theorem screen_stock_result_sound (tick : string)
  (financials : option Financials) (price_data market_data : DataFrame)
  (res : ScreenResult) :
  screen_stock series_mean rolling_mean tick financials price_data market_data
  = Ok (Some res) ->
  exists fin,
    financials = Some fin /\
    res = mkResult tick (q_eps_growth fin) (a_eps_growth fin) (shares_out fin)
            (institutional_own fin) (fst (detect_base_on_base price_data)) /\
    (res_q_eps_growth res <? 25) = false /\
    (res_a_eps_growth res <? 25) = false /\
    (res_shares_out res <= 200000000)%Z /\
    (res_institutional_own res <? 30) = false /\
    check_deceleration (quarterly_earnings fin) = Ok false /\
    bars price_data <> [] /\ bars market_data <> [] /\
    volume_dry_up series_mean price_data = true /\
    relative_strength series_mean price_data market_data = Ok true.
Proof. apply screen_stock_some_inv. Qed.

End CascadeOutcome.

Lemma screen_stock_result_sound_witness :
  bars rising_stock <> [] /\
  volume_dry_up mean_skipna rising_stock = true /\
  relative_strength mean_skipna rising_stock flat_market = Ok true.
Proof.
  destruct (screen_stock_result_sound mean_skipna mean_last "ACME"
              (fetch_financials [1; 2] three_years sound_info)
              rising_stock flat_market
              (mkResult "ACME" 100 100 50000000 35 false))
    as (fin & _ & _ & _ & _ & _ & _ & _ & Hp & _ & Hv & Hr).
  - vm_compute. reflexivity.
  - split; [exact Hp|]. split; [exact Hv | exact Hr].
Defined.

(** * The batch *)

Section BatchProperties.

Variable series_mean : list float -> float.
Variable rolling_mean : nat -> list float -> float.

Lemma passes_cons (s : Fetched) (stocks : list Fetched) :
  passes series_mean rolling_mean (s :: stocks)
  = match screen_fetched series_mean rolling_mean s with
    | Ok (Some r) => [r]
    | _ => []
    end ++ passes series_mean rolling_mean stocks.
Proof. reflexivity. Qed.

Lemma passes_app (l1 l2 : list Fetched) :
  passes series_mean rolling_mean (l1 ++ l2)
  = passes series_mean rolling_mean l1 ++ passes series_mean rolling_mean l2.
Proof. unfold passes. apply flat_map_app. Qed.

Lemma run_screener_returns (stocks : list Fetched) :
  all_return series_mean rolling_mean stocks ->
  forall results,
    run_screener series_mean rolling_mean stocks results
    = (results ++ passes series_mean rolling_mean stocks, None).
Proof.
  intros H. induction H as [|s stocks [o Ho] _ IH]; intros results.
  - cbn [run_screener]. unfold passes. cbn [flat_map]. rewrite app_nil_r. reflexivity.
  - cbn [run_screener]. rewrite passes_cons, Ho.
    destruct o as [r|]; rewrite IH; [rewrite <- app_assoc|]; reflexivity.
Qed.

Lemma run_screener_stops (before : list Fetched) (s : Fetched)
  (after : list Fetched) (e : exn) :
  all_return series_mean rolling_mean before ->
  screen_fetched series_mean rolling_mean s = Raise e ->
  forall results,
    run_screener series_mean rolling_mean (before ++ s :: after) results
    = (results ++ passes series_mean rolling_mean before, Some e).
Proof.
  intros H He. induction H as [|b before [o Ho] _ IH]; intros results.
  - cbn [app run_screener]. rewrite He. unfold passes. cbn [flat_map].
    rewrite app_nil_r. reflexivity.
  - cbn [app run_screener]. rewrite passes_cons, Ho.
    destruct o as [r|]; rewrite IH; [rewrite <- app_assoc|]; reflexivity.
Qed.

(** X12. [run_screener] only ever appends to [self.results].  When no
    ticker makes [screen_stock] raise, the call ends normally with the
    results of the tickers that passed appended in the order of the tickers.
    The first ticker that raises ends the call with its exception: the
    results of the tickers before it stay appended, and the tickers after it
    are never screened, whatever their data. *)
Theorem run_screener_spec (results : list ScreenResult) :
  (forall stocks,
     all_return series_mean rolling_mean stocks ->
     run_screener series_mean rolling_mean stocks results
     = (results ++ passes series_mean rolling_mean stocks, None)) /\
  (forall before s after e,
     all_return series_mean rolling_mean before ->
     screen_fetched series_mean rolling_mean s = Raise e ->
     run_screener series_mean rolling_mean (before ++ s :: after) results
     = (results ++ passes series_mean rolling_mean before, Some e)).
Proof.
  split.
  - intros stocks H. apply run_screener_returns, H.
  - intros before s after e H He. apply run_screener_stops; assumption.
Qed.

(** X13. [self.results] is not reset between calls: a second call on the
    same tickers with the same data appends the same results once more. *)
Theorem run_screener_accumulates (stocks : list Fetched)
  (results : list ScreenResult) :
  all_return series_mean rolling_mean stocks ->
  run_screener series_mean rolling_mean stocks
    (fst (run_screener series_mean rolling_mean stocks results))
  = (results ++ passes series_mean rolling_mean stocks
             ++ passes series_mean rolling_mean stocks, None).
Proof.
  intros H. rewrite !(run_screener_returns stocks H). cbn [fst].
  rewrite <- app_assoc. reflexivity.
Qed.

(** Whatever happens, the call appends the results of the tickers it got
    through, a prefix of the list. *)
Lemma run_screener_prefix (stocks : list Fetched) :
  forall results, exists screened rest,
    stocks = screened ++ rest /\
    fst (run_screener series_mean rolling_mean stocks results)
    = results ++ passes series_mean rolling_mean screened.
Proof.
  induction stocks as [|s stocks IH]; intros results.
  - exists [], []. split; [reflexivity|]. cbn. rewrite app_nil_r. reflexivity.
  - cbn [run_screener].
    destruct (screen_fetched series_mean rolling_mean s) as [[r|]|e] eqn:E.
    + destruct (IH (results ++ [r])) as (screened & rest & -> & H).
      exists (s :: screened), rest. split; [reflexivity|].
      rewrite H, passes_cons, E, <- app_assoc. reflexivity.
    + destruct (IH results) as (screened & rest & -> & H).
      exists (s :: screened), rest. split; [reflexivity|].
      rewrite H, passes_cons, E. reflexivity.
    + exists [], (s :: stocks). split; [reflexivity|]. cbn.
      rewrite app_nil_r. reflexivity.
Qed.

Lemma passes_tickers_incl (stocks : list Fetched) (t : string) :
  In t (map ticker (passes series_mean rolling_mean stocks)) ->
  In t (map stock_ticker stocks).
Proof.
  induction stocks as [|s stocks IH]; [intros []|].
  rewrite passes_cons, map_app, in_app_iff. cbn [map]. intros [H|H].
  - left. destruct (screen_fetched series_mean rolling_mean s) as [[r|]|e] eqn:E;
      simpl in H; try contradiction.
    destruct H as [<-|[]].
    destruct (screen_stock_some_inv _ _ _ _ _ _ _ E) as (fin & _ & -> & _).
    reflexivity.
  - right. apply IH, H.
Qed.

Lemma passes_tickers_NoDup (stocks : list Fetched) :
  NoDup (map stock_ticker stocks) ->
  NoDup (map ticker (passes series_mean rolling_mean stocks)).
Proof.
  induction stocks as [|s stocks IH]; intros H; [constructor|].
  cbn [map] in H. apply NoDup_cons_iff in H. destruct H as [Hn Hd].
  rewrite passes_cons.
  destruct (screen_fetched series_mean rolling_mean s) as [[r|]|e] eqn:E;
    cbn [app map]; try (apply IH, Hd).
  constructor; [|apply IH, Hd].
  intros Hin. apply passes_tickers_incl in Hin.
  destruct (screen_stock_some_inv _ _ _ _ _ _ _ E) as (fin & _ & -> & _).
  cbn [ticker] in Hin. contradiction.
Qed.

Lemma passes_sound (stocks : list Fetched) :
  Forall (fun r =>
            (res_q_eps_growth r <? 25) = false /\
            (res_a_eps_growth r <? 25) = false /\
            (res_shares_out r <= 200000000)%Z /\
            (res_institutional_own r <? 30) = false)
         (passes series_mean rolling_mean stocks).
Proof.
  induction stocks as [|s stocks IH]; [constructor|].
  rewrite passes_cons.
  destruct (screen_fetched series_mean rolling_mean s) as [[r|]|e] eqn:E;
    cbn [app]; try exact IH.
  constructor; [|exact IH].
  destruct (screen_stock_some_inv _ _ _ _ _ _ _ E)
    as (fin & _ & _ & H1 & H2 & H3 & H4 & _).
  repeat split; assumption.
Qed.

Lemma passes_length (stocks : list Fetched) :
  (length (passes series_mean rolling_mean stocks) <= length stocks)%nat.
Proof.
  induction stocks as [|s stocks IH]; [cbn; lia|].
  rewrite passes_cons, length_app.
  destruct (screen_fetched series_mean rolling_mean s) as [[r|]|e]; cbn; lia.
Qed.

(** X14. Whether the call ends normally or not, what [run_screener] adds to
    [self.results] is at most one result per ticker; every added result
    has growths not below 25, at most 200 million shares and an
    institutional holding not below 30; its ticker is one of the list; and
    tickers that are distinct in the list give results with distinct
    tickers. *)
Theorem run_screener_results_sound (stocks : list Fetched)
  (results : list ScreenResult) :
  exists added,
    fst (run_screener series_mean rolling_mean stocks results)
    = results ++ added /\
    (length added <= length stocks)%nat /\
    Forall (fun r =>
              (res_q_eps_growth r <? 25) = false /\
              (res_a_eps_growth r <? 25) = false /\
              (res_shares_out r <= 200000000)%Z /\
              (res_institutional_own r <? 30) = false) added /\
    incl (map ticker added) (map stock_ticker stocks) /\
    (NoDup (map stock_ticker stocks) -> NoDup (map ticker added)).
Proof.
  destruct (run_screener_prefix stocks results) as (screened & rest & -> & H).
  exists (passes series_mean rolling_mean screened).
  split; [exact H|]. split; [|split; [apply passes_sound|split]].
  - rewrite length_app. pose proof (passes_length screened). lia.
  - intros t Ht. apply passes_tickers_incl in Ht.
    rewrite map_app. apply in_app_iff. left. exact Ht.
  - intros Hn. rewrite map_app in Hn. apply NoDup_app_remove_r in Hn.
    apply passes_tickers_NoDup, Hn.
Qed.

End BatchProperties.

Lemma run_screener_spec_witness :
  run_screener mean_skipna mean_last [acme; missing; zeta] []
  = ([] ++ passes mean_skipna mean_last [acme; missing; zeta], None) /\
  run_screener mean_skipna mean_last
    ([acme; missing] ++ three_quarters :: [zeta]) []
  = ([] ++ passes mean_skipna mean_last [acme; missing], Some IndexError).
Proof.
  split.
  - apply (proj1 (run_screener_spec mean_skipna mean_last [])).
    repeat constructor; eexists; vm_compute; reflexivity.
  - apply (proj2 (run_screener_spec mean_skipna mean_last [])).
    + repeat constructor; eexists; vm_compute; reflexivity.
    + vm_compute. reflexivity.
Defined.

Lemma run_screener_accumulates_witness :
  run_screener mean_skipna mean_last [acme; missing]
    (fst (run_screener mean_skipna mean_last [acme; missing] []))
  = ([] ++ passes mean_skipna mean_last [acme; missing]
        ++ passes mean_skipna mean_last [acme; missing], None).
Proof.
  apply (run_screener_accumulates mean_skipna mean_last [acme; missing] []).
  repeat constructor; eexists; vm_compute; reflexivity.
Defined.

(** * The ticker universe *)

(** Every character that breaks a line is one that [strip] removes. *)
Lemma linebreak_is_space (c : N) : is_linebreak c = true -> is_space c = true.
Proof.
  unfold is_linebreak, is_space.
  rewrite !orb_true_iff, !andb_true_iff, !N.leb_le, !N.eqb_eq. lia.
Qed.

Lemma splitlines_from_no_break (n : nat) :
  forall (s line : text),
    (length s <= n)%nat ->
    Forall (fun c => is_linebreak c = false) line ->
    Forall (Forall (fun c => is_linebreak c = false)) (splitlines_from line s).
Proof.
  induction n as [|n IH]; intros s line Hn Hl.
  - destruct s; [|simpl in Hn; lia]. cbn [splitlines_from].
    constructor; [apply Forall_rev, Hl | constructor].
  - destruct s as [|c s']; cbn [splitlines_from].
    + constructor; [apply Forall_rev, Hl | constructor].
    + simpl in Hn. destruct (is_linebreak c) eqn:B.
      * constructor; [apply Forall_rev, Hl|].
        destruct s' as [|c' s'']; [constructor|].
        simpl in Hn.
        destruct ((c =? 13) && (c' =? 10))%N.
        -- destruct s'' as [|c2 s3]; [constructor|].
           apply IH; [simpl in *; lia | constructor].
        -- apply IH; [simpl; lia | constructor].
      * apply IH; [lia|]. constructor; assumption.
Qed.

(** No line of [splitlines] holds a line break. *)
Lemma splitlines_no_break (body line : text) :
  In line (splitlines body) -> Forall (fun c => is_linebreak c = false) line.
Proof.
  intros H. unfold splitlines in H. destruct body as [|c s]; [destruct H|].
  pose proof (splitlines_from_no_break (length (c :: s)) (c :: s) []
                (le_n _) (Forall_nil _)) as F.
  rewrite Forall_forall in F. apply F, H.
Qed.

Lemma lstrip_head (s : text) (c : N) (r : text) :
  lstrip s = c :: r -> is_space c = false.
Proof.
  induction s as [|x s IH]; cbn [lstrip]; [discriminate|].
  destruct (is_space x) eqn:E; [exact IH|].
  intros H. injection H as <- _. exact E.
Qed.

Lemma lstrip_suffix (s : text) : exists pre, s = pre ++ lstrip s.
Proof.
  induction s as [|x s [pre IH]]; [exists []; reflexivity|].
  cbn [lstrip]. destruct (is_space x).
  - exists (x :: pre). cbn [app]. rewrite <- IH. reflexivity.
  - exists []. reflexivity.
Qed.

Lemma lstrip_fixed (c : N) (r : text) :
  is_space c = false -> lstrip (c :: r) = c :: r.
Proof. intros H. cbn [lstrip]. rewrite H. reflexivity. Qed.

Lemma lstrip_Forall (P : N -> Prop) (s : text) :
  Forall P s -> Forall P (lstrip s).
Proof.
  intros H. destruct (lstrip_suffix s) as [pre E]. rewrite E in H.
  apply Forall_app in H. apply H.
Qed.

Lemma strip_Forall (P : N -> Prop) (s : text) :
  Forall P s -> Forall P (strip s).
Proof.
  intros H. unfold strip.
  apply Forall_rev, lstrip_Forall, Forall_rev, lstrip_Forall, H.
Qed.

(** A stripped string that is not empty ends in a character that is no
    space. *)
Lemma strip_last (s : text) :
  strip s <> [] -> exists r c, strip s = r ++ [c] /\ is_space c = false.
Proof.
  unfold strip. destruct (lstrip (rev (lstrip s))) as [|c r] eqn:E;
    [intros H; contradiction H; reflexivity|].
  intros _. exists (rev r), c. split; [reflexivity|].
  apply (lstrip_head _ _ _ E).
Qed.

(** And it starts with one. *)
Lemma strip_first (s : text) :
  strip s <> [] -> exists c r, strip s = c :: r /\ is_space c = false.
Proof.
  intros H. destruct (strip s) as [|c r] eqn:E; [contradiction H; reflexivity|].
  exists c, r. split; [reflexivity|].
  unfold strip in E.
  destruct (lstrip_suffix (rev (lstrip s))) as [pre P].
  apply (f_equal (@rev N)) in P. rewrite rev_involutive, rev_app_distr, E in P.
  cbn [app] in P. apply (lstrip_head _ _ _ P).
Qed.

(** Stripping a stripped string changes nothing. *)
Lemma strip_strip (s : text) : strip (strip s) = strip s.
Proof.
  destruct (strip s) as [|c r] eqn:E; [reflexivity|].
  assert (Hne : strip s <> []) by (rewrite E; discriminate).
  destruct (strip_first s Hne) as (c1 & r1 & E1 & S1).
  destruct (strip_last s Hne) as (r2 & c2 & E2 & S2).
  rewrite E in E1. injection E1 as <- <-.
  unfold strip at 1. rewrite (lstrip_fixed c r S1).
  rewrite E in E2. rewrite E2, rev_app_distr. cbn [rev app].
  rewrite (lstrip_fixed c2 (rev r2) S2).
  change (c2 :: rev r2) with ([c2] ++ rev r2).
  rewrite rev_app_distr, rev_involutive. reflexivity.
Qed.

(** X15. [get_all_tickers] raises [ValueError] on every status but 200,
    whatever the body.  On status 200 it returns each ticker once; the
    tickers are the lines of the body, stripped, that are not blank; and a
    ticker is never empty, starts and ends with a character that is no
    space, holds no line break, and is left as it is by a further strip. *)
Theorem get_all_tickers_spec (status_code : Z) (body : text) :
  (status_code <> 200%Z -> get_all_tickers status_code body = inr ValueError) /\
  (status_code = 200%Z ->
   exists tickers,
     get_all_tickers status_code body = inl tickers /\
     NoDup tickers /\
     (forall t, In t tickers <->
        t <> [] /\ exists line, In line (splitlines body) /\ strip line = t) /\
     (forall t, In t tickers ->
        (exists c r, t = c :: r /\ is_space c = false) /\
        (exists r c, t = r ++ [c] /\ is_space c = false) /\
        Forall (fun c => is_linebreak c = false) t /\
        strip t = t)).
Proof.
  unfold get_all_tickers. split.
  - intros H. destruct (Z.eqb_spec status_code 200); [contradiction | reflexivity].
  - intros ->. cbn [Z.eqb Pos.eqb]. eexists. split; [reflexivity|].
    assert (M : forall t,
      In t (list_of_set
              (map strip
                 (filter (fun line => match strip line with
                                      | [] => false
                                      | _ :: _ => true
                                      end) (splitlines body)))) <->
      t <> [] /\ exists line, In line (splitlines body) /\ strip line = t).
    { intros t. unfold list_of_set. rewrite nodup_In, in_map_iff. split.
      - intros (line & <- & Hin). apply filter_In in Hin. destruct Hin as [Hin Hs].
        split; [|exists line; split; [exact Hin | reflexivity]].
        destruct (strip line); [discriminate Hs | discriminate].
      - intros (Hne & line & Hin & <-). exists line. split; [reflexivity|].
        apply filter_In. split; [exact Hin|].
        destruct (strip line); [contradiction Hne; reflexivity | reflexivity]. }
    split; [apply NoDup_nodup|]. split; [exact M|].
    intros t Ht. apply M in Ht. destruct Ht as (Hne & line & Hin & <-).
    split; [apply strip_first, Hne|]. split; [apply strip_last, Hne|].
    split; [apply strip_Forall, (splitlines_no_break body), Hin|].
    apply strip_strip.
Qed.

Lemma get_all_tickers_spec_witness :
  get_all_tickers 404 sample_body = inr ValueError /\
  exists tickers,
    get_all_tickers 200 sample_body = inl tickers /\ NoDup tickers.
Proof.
  split.
  - apply (proj1 (get_all_tickers_spec 404 sample_body)). discriminate.
  - destruct (proj2 (get_all_tickers_spec 200 sample_body) eq_refl)
      as (tickers & E & Hn & _).
    exists tickers. split; [exact E | exact Hn].
Defined.

(** * Deceleration in full, and a second look for a base on base *)

(** X16. [check_deceleration] is false on fewer than three entries and
    raises [IndexError] on exactly three.  On four or more it looks at the
    last four entries only, and is true exactly when the three growths
    between them fall strictly and the last one is below 15. *)
Theorem check_deceleration_spec (s : list float) :
  ((length s < 3)%nat -> check_deceleration s = Ok false) /\
  (length s = 3%nat -> check_deceleration s = Raise IndexError) /\
  (forall pre w x y z, s = pre ++ [w; x; y; z] ->
     check_deceleration s
     = Ok ((growth z y <? growth y x) && (growth y x <? growth x w)
           && (growth z y <? 15))) /\
  (forall pre w x y z, s = pre ++ [w; x; y; z] ->
     check_deceleration s = check_deceleration [w; x; y; z]).
Proof.
  split; [apply check_deceleration_short|].
  split; [apply check_deceleration_raises|].
  split; intros pre w x y z ->.
  - apply check_deceleration_four.
  - rewrite check_deceleration_four. symmetry.
    apply (check_deceleration_four []).
Qed.

Lemma check_deceleration_spec_witness :
  check_deceleration [1; 2] = Ok false /\
  check_deceleration [1; 2; 3] = Raise IndexError /\
  check_deceleration [7; 100; 150; 180; 198] = Ok true.
Proof.
  split; [|split].
  - apply (proj1 (check_deceleration_spec [1; 2])). simpl. lia.
  - apply (proj1 (proj2 (check_deceleration_spec [1; 2; 3]))). reflexivity.
  - rewrite (proj2 (proj2 (proj2 (check_deceleration_spec
               [7; 100; 150; 180; 198]))) [7] 100 150 180 198 eq_refl).
    vm_compute. reflexivity.
Defined.

Lemma set_column_twice (name : string) (col : list float)
  (cols : list (string * list float)) :
  set_column name col (set_column name col cols) = set_column name col cols.
Proof.
  induction cols as [|[n c] rest IH]; cbn [set_column].
  - rewrite String.eqb_refl. reflexivity.
  - destruct (String.eqb n name) eqn:E; cbn [set_column].
    + rewrite String.eqb_refl. reflexivity.
    + rewrite E, IH. reflexivity.
Qed.

(** X17. A second call of [detect_base_on_base] on the frame the first call
    left gives the same answer and leaves that frame as it is: the column
    written is written over with the same values. *)
Theorem detect_base_on_base_twice (data : DataFrame) :
  detect_base_on_base (snd (detect_base_on_base data))
  = (fst (detect_base_on_base data), snd (detect_base_on_base data)).
Proof.
  unfold detect_base_on_base, empty.
  destruct (bars data) as [|b rest] eqn:E; cbn [fst snd assign bars added].
  - rewrite E. reflexivity.
  - rewrite E. unfold assign. cbn [bars added].
    rewrite set_column_twice. reflexivity.
Qed.

(** * Annual frames under integer labels *)

Lemma tail_slice_incl (A : Type) (k : nat) (l : list A) (x : A) :
  In x (tail_slice k l) -> In x l.
Proof.
  unfold tail_slice. intros H.
  rewrite <- (firstn_skipn (length l - k) l). apply in_or_app. right. exact H.
Qed.

Section IntegerLabels.

Variable series_mean : list float -> float.
Variable rolling_mean : nat -> list float -> float.

(** X18. An annual frame under integer labels none of which is 0 (a frame
    labelled by years) never yields a result.  With three rows or more the
    read [eps_values[0]] raises [KeyError], [fetch_financials] returns
    [None] and the ticker is skipped; with fewer the annual growth is 0 and
    the second criterion rejects it, unless the first test has rejected or
    raised before. *)
Theorem integer_labels_without_zero (tick : string) (quarterly : list float)
  (rows : list (Z * float)) (info : Info) (price_data market_data : DataFrame) :
  ~ In 0%Z (map fst rows) ->
  ((3 <= length rows)%nat ->
   annual_growth (IntIndexed rows) = Raise KeyError /\
   fetch_financials quarterly (IntIndexed rows) info = None /\
   screen_stock series_mean rolling_mean tick
     (fetch_financials quarterly (IntIndexed rows) info) price_data market_data
   = Ok None) /\
  (forall res,
     screen_stock series_mean rolling_mean tick
       (fetch_financials quarterly (IntIndexed rows) info) price_data market_data
     <> Ok (Some res)).
Proof.
  intros H0.
  assert (K : (3 <= length rows)%nat ->
              annual_growth (IntIndexed rows) = Raise KeyError).
  { intros Hlen. apply annual_growth_key_error; [exact Hlen|]. left.
    intros Hin. apply H0. apply in_map_iff in Hin.
    destruct Hin as (r & Hr & Hin). apply in_map_iff. exists r.
    split; [exact Hr|]. apply (tail_slice_incl _ 3), Hin. }
  split.
  - intros Hlen. split; [apply K, Hlen|].
    rewrite (fetch_financials_none quarterly _ info _ (K Hlen)).
    split; reflexivity.
  - intros res Hres.
    destruct (Nat.lt_ge_cases (length rows) 3) as [Hlen|Hlen].
    + assert (A : annual_growth (IntIndexed rows) = Ok 0).
      { apply annual_growth_short. cbn [values_of]. rewrite length_map. exact Hlen. }
      destruct (fetch_financials_computed quarterly _ info 0 A) as (q & _ & F).
      rewrite F in Hres.
      destruct (screen_stock_some_inv _ _ _ _ _ _ _ Hres)
        as (fin & E & -> & _ & Ha & _).
      injection E as <-. cbn [res_a_eps_growth a_eps_growth] in Ha.
      discriminate Ha.
    + rewrite (fetch_financials_none quarterly _ info _ (K Hlen)) in Hres.
      discriminate Hres.
Qed.

End IntegerLabels.

Lemma integer_labels_without_zero_witness :
  fetch_financials [1; 2]
    (IntIndexed [(2020%Z, 9); (2021%Z, 1); (2022%Z, 2); (2023%Z, 4)]) sound_info
  = None.
Proof.
  apply (proj1 (integer_labels_without_zero mean_skipna mean_last "ACME" [1; 2]
                  [(2020%Z, 9); (2021%Z, 1); (2022%Z, 2); (2023%Z, 4)]
                  sound_info rising_stock flat_market
                  ltac:(vm_compute;
                        intros [H|[H|[H|[H|[]]]]]; discriminate H))).
  simpl. lia.
Defined.
